(** * glide-finetune: the training step, the epoch loop and the driver

    A shallow embedding of [glide-finetune.py].  Tensors are four-dimensional
    arrays of exact rationals, Python exceptions are values of [exn], and the
    effects of the script (random draws, trainer calls, files, the experiment
    tracker, the console) are threaded through a state-and-exception monad
    whose state records the events in program order. *)

From Stdlib Require Import ZArith QArith Qcanon List Sorted Ascii String Lia.
From stdpp Require Import gmap strings list pretty.
Import ListNotations.

Local Open Scope Z_scope.

(** ** Exceptions *)

Inductive exn : Type :=
| RuntimeError
| ValueError
| ZeroDivisionError
| UnboundLocalError
| AttributeError
| KeyError (key : string)
| AssertionError (msg : string).

(** ** Tensors

    Every tensor the training step touches has four dimensions
    (batch, channel, height, width).  The entries are read through an index
    function; entries outside the shape are never looked at. *)

Record Tensor : Type := mkTensor {
  dim0 : nat;
  dim1 : nat;
  dim2 : nat;
  dim3 : nat;
  data : nat -> nat -> nat -> nat -> Qc
}.

Definition shape (t : Tensor) : nat * nat * nat * nat :=
  (dim0 t, dim1 t, dim2 t, dim3 t).

Definition numel (t : Tensor) : nat :=
  (dim0 t * dim1 t * dim2 t * dim3 t)%nat.

Definition Qc_of_nat (n : nat) : Qc := Q2Qc (inject_Z (Z.of_nat n)).

Definition Qsum (l : list Qc) : Qc := fold_right Qcplus (Q2Qc 0) l.

(** [Tensor.mean()] of a one-dimensional tensor.  Where torch yields NaN
    (no element), the quotient by zero of [Qc] yields 0. *)
Definition mean (l : list Qc) : Qc :=
  (Qsum l / Qc_of_nat (length l))%Qc.

(** Size of a dimension of the result of an elementwise operation, by
    torch's broadcasting rule: equal sizes, or one of them is 1. *)
Definition broadcast_dim (a b : nat) : option nat :=
  if (a =? b)%nat then Some a
  else if (a =? 1)%nat then Some b
  else if (b =? 1)%nat then Some a
  else None.

(** Index into an operand whose dimension has size [d]. *)
Definition bidx (d i : nat) : nat := if (d =? 1)%nat then 0%nat else i.

(** [x - y] *)
Definition tensor_sub (x y : Tensor) : exn + Tensor :=
  match broadcast_dim (dim0 x) (dim0 y), broadcast_dim (dim1 x) (dim1 y),
        broadcast_dim (dim2 x) (dim2 y), broadcast_dim (dim3 x) (dim3 y) with
  | Some d0, Some d1, Some d2, Some d3 =>
      inr (mkTensor d0 d1 d2 d3
             (fun b c h w =>
                (data x (bidx (dim0 x) b) (bidx (dim1 x) c)
                        (bidx (dim2 x) h) (bidx (dim3 x) w)
                 - data y (bidx (dim0 y) b) (bidx (dim1 y) c)
                          (bidx (dim2 y) h) (bidx (dim3 y) w))%Qc))
  | _, _, _, _ => inl RuntimeError
  end.

(** [x ** 2] *)
Definition tensor_pow2 (x : Tensor) : Tensor :=
  mkTensor (dim0 x) (dim1 x) (dim2 x) (dim3 x)
           (fun b c h w => (data x b c h w ^ 2)%Qc).

(** The entries of example [b], all non-batch dimensions flattened. *)
Definition flatten_example (t : Tensor) (b : nat) : list Qc :=
  flat_map (fun c =>
    flat_map (fun h =>
      map (fun w => data t b c h w) (seq 0 (dim3 t)))
      (seq 0 (dim2 t)))
    (seq 0 (dim1 t)).

(** Modelled from the spec: [util.mean_flat] is not among the sources; the
    spec calls it the mean over all non-batch dimensions.  The result is a
    one-dimensional tensor with one entry per example. *)
Definition mean_flat (t : Tensor) : list Qc :=
  map (fun b => mean (flatten_example t b)) (seq 0 (dim0 t)).

(** [th.split(t, split_size, dim=1)]: chunks of [split_size] channels, the
    last one smaller when the channel count is not a multiple; always at
    least one chunk.  A zero [split_size] is accepted only for a tensor
    without channels. *)
Definition split_chunk (t : Tensor) (split_size i : nat) : Tensor :=
  mkTensor (dim0 t) (Nat.min split_size (dim1 t - i * split_size)) (dim2 t) (dim3 t)
           (fun b c h w => data t b (i * split_size + c)%nat h w).

Definition th_split (t : Tensor) (split_size : nat) : exn + list Tensor :=
  if (split_size =? 0)%nat then
    if (dim1 t =? 0)%nat then inr [t] else inl RuntimeError
  else
    inr (map (split_chunk t split_size)
             (seq 0 (Nat.max ((dim1 t + split_size - 1) / split_size) 1))).

(** [a, b = xs]: unpacking into two names needs exactly two values. *)
Definition unpack2 {A : Type} (xs : list A) : exn + (A * A) :=
  match xs with
  | [a; b] => inr (a, b)
  | _ => inl ValueError
  end.

(** ** The random generator

    The generator is a stream of raw draws; the position in the stream is
    part of the state of the run. *)

Record Generator : Type := mkGenerator {
  randint_raw : nat -> Z;
  randn_raw : nat -> Qc
}.

(** ** Model parameters and optimizers *)

Record Param : Type := mkParam {
  param_name : string;
  requires_grad : bool
}.

Inductive Optimizer : Type :=
| SGD (params : list Param) (lr momentum : Qc)
| AdamW (params : list Param) (lr weight_decay : Qc).

(** ** State, events and the monad *)

Inductive pyval : Type :=
| PBool (b : bool)
| PInt (n : Z).

Inductive log_value : Type :=
| VInt (n : Z)
| VFloat (x : Qc)
| VImage (path caption : string).

Inductive message : Type :=
| MsgLoss (loss : Qc)
| MsgSampling (train_idx : nat)
| MsgSavedSample (path : string)
| MsgSavedCheckpoint (train_idx : nat) (checkpoints_dir : string)
| MsgFinished
| MsgWandbSetup
| MsgDatasetContains (n : nat)
| MsgStartingEpoch (epoch : nat).

Inductive event : Type :=
| Makedirs (path : string)
| WandbSetup (project_name : string)
| LoadBaseModel (glide_path : string)
| MakeDataset (folder : string)
| ModelTo
| ModelTrain
| ModelZeroGrad
| Print (m : message)
| TqdmWrite (m : message)
| NewTrainer (use_fp16 : pyval)
| LoopIter (train_idx : nat)
| TrainerZeroGrad
| TrainerBackward (loss : Qc)
| TrainerOptimize (opt : Optimizer)
| UtilSample (prompt : string) (batch_size : Z)
| ImageSave (path : string)
| ThSave (path : string)
| WandbLog (record : gmap string log_value).

Record world : Type := mkWorld {
  trace : list event;
  rng : nat
}.

Definition M (A : Type) : Type := world -> (exn + A) * world.

Definition ret {A : Type} (a : A) : M A := fun w => (inr a, w).

Definition bind {A B : Type} (m : M A) (k : A -> M B) : M B :=
  fun w => match m w with
           | (inr a, w') => k a w'
           | (inl e, w') => (inl e, w')
           end.

Definition raise {A : Type} (e : exn) : M A := fun w => (inl e, w).

Definition emit (e : event) : M unit :=
  fun w => (inr tt, mkWorld (trace w ++ [e]) (rng w)).

Definition lift {A : Type} (r : exn + A) : M A :=
  fun w => (r, w).

Notation "x <~ m ;~ k" := (bind m (fun x => k))
  (at level 20, m at level 100, k at level 200, only parsing).
Notation "m >>~ k" := (bind m (fun _ => k))
  (at level 100, k at level 200, only parsing, right associativity).

(** ** External collaborators

    The network, the diffusion process and the options mapping come from
    [util.load_base_model]; they are taken as they are. *)

Record Text2ImUNet : Type := mkModel {
  forward : Tensor -> list Z -> list (list Z) -> list (list bool) -> Tensor;
  parameters : list Param
}.

Record SpacedDiffusion : Type := mkDiffusion {
  betas : list Qc;
  q_sample : Tensor -> list Z -> Tensor -> Tensor
}.

(** A batch is the triple (tokens, mask, image tensor). *)
Definition Batch : Type := (list (list Z) * list (list bool) * Tensor)%type.

(** ** Library calls with an effect on the state *)

(** [th.randint(low, high, (size,))]: [size] integers of [low, high); torch
    refuses an empty interval. *)
Definition randint_values (g : Generator) (low high : Z) (size pos : nat) : list Z :=
  map (fun i => low + randint_raw g (pos + i)%nat mod (high - low)) (seq 0 size).

Definition th_randint (g : Generator) (low high : Z) (size : nat) : M (list Z) :=
  fun w =>
    if high <=? low then (inl RuntimeError, w)
    else (inr (randint_values g low high size (rng w)),
          mkWorld (trace w) (rng w + size)%nat).

(** [th.randn_like(x)]: a tensor of the shape of [x], one draw per entry. *)
Definition randn_values (g : Generator) (x : Tensor) (pos : nat) : Tensor :=
  mkTensor (dim0 x) (dim1 x) (dim2 x) (dim3 x)
    (fun b c h w =>
       randn_raw g (pos + (((b * dim1 x + c) * dim2 x + h) * dim3 x + w))%nat).

Definition th_randn_like (g : Generator) (x : Tensor) : M Tensor :=
  fun w =>
    (inr (randn_values g x (rng w)), mkWorld (trace w) (rng w + numel x)%nat).

(** [d[key]] on a Python dict. *)
Definition dict_get (d : gmap string pyval) (key : string) : M pyval :=
  match d !! key with
  | Some v => ret v
  | None => raise (KeyError key)
  end.

(** [os.path.join(a, b)] on a POSIX system. *)
Definition startswith_sep (s : string) : bool :=
  match s with
  | String c _ => Ascii.eqb c "/"%char
  | EmptyString => false
  end.

Definition endswith_sep (s : string) : bool :=
  String.eqb (substring (String.length s - 1) 1 s) "/".

Definition os_path_join (a b : string) : string :=
  if startswith_sep b then b
  else if String.eqb a "" || endswith_sep a then a +:+ b
  else a +:+ "/" +:+ b.

(** ** [train_step] *)

(** Lines 28 to 30: one timestep per example. *)
Definition draw_timesteps (g : Generator) (glide_diffusion : SpacedDiffusion)
    (x_start : Tensor) : M (list Z) :=
  th_randint g 0 (Z.of_nat (length (betas glide_diffusion)) - 1) (dim0 x_start).

(** Lines 45 to 47: [util.mean_flat((noise - epsilon) ** 2).mean()]. *)
Definition squared_error_loss (noise epsilon : Tensor) : exn + Qc :=
  match tensor_sub noise epsilon with
  | inr d => inr (mean (mean_flat (tensor_pow2 d)))
  | inl e => inl e
  end.

Definition train_step (g : Generator) (glide_model : Text2ImUNet)
    (glide_diffusion : SpacedDiffusion) (batch : Batch) : M Qc :=
  let '(tokens, masks, x_start) := batch in
  timesteps <~ draw_timesteps g glide_diffusion x_start ;~
  noise <~ th_randn_like g x_start ;~
  let x_t := q_sample glide_diffusion x_start timesteps noise in
  let B := dim0 x_t in
  let C := dim1 x_t in
  let model_output := forward glide_model x_t timesteps tokens masks in
  chunks <~ lift (th_split model_output C) ;~
  halves <~ lift (unpack2 chunks) ;~
  let epsilon := fst halves in
  lift (squared_error_loss noise epsilon).

(** ** The Python [for] statement

    The loop variable keeps its last value after the loop; it stays unbound
    when the iterable is empty. *)

Fixpoint for_loop {A : Type} (xs : list A) (body : A -> M unit)
    (last : option A) : M (option A) :=
  match xs with
  | [] => ret last
  | x :: xs' => body x >>~ for_loop xs' body (Some x)
  end.

Fixpoint enumerate_from {A : Type} (start : nat) (xs : list A) : list (nat * A) :=
  match xs with
  | [] => []
  | x :: xs' => (start, x) :: enumerate_from (S start) xs'
  end.

Definition enumerate {A : Type} (xs : list A) : list (nat * A) :=
  enumerate_from 0 xs.

(** [a % b] on Python integers. *)
Definition py_mod (a b : Z) : M Z :=
  if b =? 0 then raise ZeroDivisionError else ret (a mod b).

(** ** Effects of the epoch loop *)

Definition trainer_zero_grad : M unit := emit TrainerZeroGrad.
Definition trainer_backward (loss : Qc) : M unit := emit (TrainerBackward loss).
Definition trainer_optimize (opt : Optimizer) : M unit := emit (TrainerOptimize opt).

(** [util.sample] draws from the generator; how many draws it takes is its
    own business. *)
Definition util_sample (sample_draws : nat) (prompt : string) (batch_size : Z) : M unit :=
  fun w => (inr tt, mkWorld (trace w ++ [UtilSample prompt batch_size])
                            (rng w + sample_draws)%nat).

(** [wandb_run.log(log)]; the parameter defaults to [None]. *)
Definition wandb_log (wandb_run : option string) (log : gmap string log_value) : M unit :=
  match wandb_run with
  | Some _ => emit (WandbLog log)
  | None => raise AttributeError
  end.

(** ** [save_model] *)

Definition checkpoint_name (train_idx : nat) : string :=
  "glide-ft-" +:+ pretty train_idx +:+ ".pt".

Definition save_model (checkpoints_dir : string) (train_idx : nat) : M unit :=
  emit (ThSave (os_path_join checkpoints_dir (checkpoint_name train_idx))) >>~
  emit (Print (MsgSavedCheckpoint train_idx checkpoints_dir)).

(** ** [run_glide_finetune_epoch] *)

Section Epoch.

Variable g : Generator.
Variable sample_draws : nat.
Variable glide_model : Text2ImUNet.
Variable glide_diffusion : SpacedDiffusion.
Variable glide_options : gmap string pyval.
Variable optimizer : Optimizer.
Variable sample_bs : Z.
Variable prompt : string.
Variable outputs_dir checkpoints_dir : string.
Variable log_frequency : Z.
Variable wandb_run : option string.

Definition epoch_body (it : nat * Batch) : M unit :=
  let '(train_idx, batch) := it in
  emit (LoopIter train_idx) >>~
  current_loss <~ train_step g glide_model glide_diffusion batch ;~
  trainer_backward current_loss >>~
  trainer_optimize optimizer >>~
  trainer_zero_grad >>~
  let log : gmap string log_value := ∅ in
  log <~ (if negb (Z.of_nat train_idx mod 10 =? 0) then
            emit (TqdmWrite (MsgLoss current_loss)) >>~
            ret (<["loss" := VFloat current_loss]>
                   (<["iter" := VInt (Z.of_nat train_idx)]> log))
          else ret log) ;~
  log <~ (if 0 <? Z.of_nat train_idx then
            r <~ py_mod (Z.of_nat train_idx) log_frequency ;~
            if r =? 0 then
              emit (Print (MsgSampling train_idx)) >>~
              util_sample sample_draws prompt sample_bs >>~
              let sample_save_path :=
                os_path_join outputs_dir (pretty train_idx +:+ ".png") in
              emit (ImageSave sample_save_path) >>~
              let log' := <["samples" := VImage sample_save_path prompt]>
                            (<["iter" := VInt (Z.of_nat train_idx)]> log) in
              emit (Print (MsgSavedSample sample_save_path)) >>~
              ret log'
            else ret log
          else ret log) ;~
  (if (Z.of_nat train_idx mod 1000 =? 0) && (0 <? Z.of_nat train_idx) then
     save_model checkpoints_dir train_idx >>~
     emit (Print (MsgSavedCheckpoint train_idx checkpoints_dir))
   else ret tt) >>~
  wandb_log wandb_run log.

Definition run_glide_finetune_epoch (dataloader : list Batch) : M unit :=
  emit (Makedirs checkpoints_dir) >>~
  use_fp16 <~ dict_get glide_options "use_fp16" ;~
  emit (NewTrainer use_fp16) >>~
  trainer_zero_grad >>~
  last <~ for_loop (enumerate dataloader) epoch_body None ;~
  emit (Print MsgFinished) >>~
  match last with
  | Some (train_idx, _) => save_model checkpoints_dir train_idx
  | None => raise UnboundLocalError
  end.

End Epoch.

(** ** [run_glide_finetune] *)

(** The keyword arguments of the driver. *)
Record Args : Type := mkArgs {
  data_dir : string;
  batch_size : Z;
  learning_rate : Qc;
  dropout : Qc;
  side_x : Z;
  side_y : Z;
  resize_ratio : Qc;
  uncond_p : Qc;
  resume_ckpt : string;
  checkpoints_dir : string;
  use_fp16 : bool;
  freeze_transformer : bool;
  freeze_diffusion : bool;
  project_name : string;
  activation_checkpointing : bool;
  use_captions : bool;
  num_epochs : Z;
  log_frequency : Z;
  test_prompt : string;
  sample_bs : Z;
  use_sgd : bool
}.

(** A dataset, as far as the driver looks at it: its length, and the batches
    a shuffling [DataLoader] over it yields on each pass. *)
Record Dataset : Type := mkDataset {
  dataset_len : nat;
  loader_batches : Z -> nat -> list Batch
}.

(** What the driver takes from outside the file: the home-directory
    expansion, [util.wandb_setup] (which hands back the run to log to, or
    [None]), [util.load_base_model], the dataset class, the generator and
    the number of draws [util.sample] takes. *)
Record Externals : Type := mkExternals {
  expanduser : string -> string;
  wandb_setup :
    Z -> Z -> Z -> Qc -> bool -> string -> string -> string -> option string;
  load_base_model :
    string -> bool -> Qc -> bool -> bool -> bool ->
    Text2ImUNet * SpacedDiffusion * gmap string pyval;
  TextImageDataset :
    string -> Z -> Z -> Qc -> Qc -> pyval -> bool -> Dataset;
  generator : Generator;
  sampler_draws : nat
}.

(** ["~" in s] *)
Fixpoint has_tilde (s : string) : bool :=
  match s with
  | EmptyString => false
  | String c s' => Ascii.eqb c "~"%char || has_tilde s'
  end.

(** [assert cond, msg] *)
Definition py_assert (cond : bool) (msg : string) : M unit :=
  if cond then ret tt else raise (AssertionError msg).

(** [th.utils.data.DataLoader(dataset, batch_size=..., shuffle=True)]; a
    batch size that is not positive is refused. *)
Definition DataLoader (dataset : Dataset) (batch_size : Z) : M (nat -> list Batch) :=
  if 0 <? batch_size then ret (loader_batches dataset batch_size)
  else raise ValueError.

(** [x < 0.0] on a float. *)
Definition Qc_negative (x : Qc) : bool :=
  match (x ?= Q2Qc 0)%Qc with
  | Lt => true
  | _ => false
  end.

(** [th.optim.SGD(params, lr=..., momentum=...)] and
    [th.optim.AdamW(params, lr=..., weight_decay=...)]: each constructor
    refuses a negative learning rate, momentum or weight decay, and the base
    class of both refuses an empty list of parameters, all with
    [ValueError]. *)
Definition th_optim_SGD (params : list Param) (lr momentum : Qc) : M Optimizer :=
  if Qc_negative lr then raise ValueError
  else if Qc_negative momentum then raise ValueError
  else match params with
       | [] => raise ValueError
       | _ :: _ => ret (SGD params lr momentum)
       end.

Definition th_optim_AdamW (params : list Param) (lr weight_decay : Qc) : M Optimizer :=
  if Qc_negative lr then raise ValueError
  else if Qc_negative weight_decay then raise ValueError
  else match params with
       | [] => raise ValueError
       | _ :: _ => ret (AdamW params lr weight_decay)
       end.

(** Lines 210 to 221: the optimizer over the parameters that require a
    gradient. *)
Definition make_optimizer (glide_model : Text2ImUNet) (use_sgd : bool)
    (learning_rate : Qc) : M Optimizer :=
  if use_sgd then
    th_optim_SGD (List.filter (fun x => requires_grad x) (parameters glide_model))
                 learning_rate (Q2Qc (9 # 10))
  else
    th_optim_AdamW (List.filter (fun x => requires_grad x) (parameters glide_model))
                   learning_rate (Q2Qc 0).

(** The object the chosen constructor hands back when it accepts its
    arguments. *)
Definition optimizer_object (glide_model : Text2ImUNet) (use_sgd : bool)
    (learning_rate : Qc) : Optimizer :=
  if use_sgd then
    SGD (List.filter (fun x => requires_grad x) (parameters glide_model))
        learning_rate (Q2Qc (9 # 10))
  else
    AdamW (List.filter (fun x => requires_grad x) (parameters glide_model))
          learning_rate (Q2Qc 0).

(** [if "~" in d: d = os.path.expanduser(d)] *)
Definition resolve_dir (ext : Externals) (d : string) : string :=
  if has_tilde d then expanduser ext d else d.

Definition run_glide_finetune (ext : Externals) (a : Args) : M unit :=
  let data_dir := resolve_dir ext (data_dir a) in
  let checkpoints_dir := resolve_dir ext (checkpoints_dir a) in
  emit (Makedirs checkpoints_dir) >>~
  emit (WandbSetup (project_name a)) >>~
  let wandb_run :=
    wandb_setup ext (batch_size a) (side_x a) (side_y a) (learning_rate a)
      (use_fp16 a) data_dir checkpoints_dir (project_name a) in
  emit (Print MsgWandbSetup) >>~
  emit (LoadBaseModel (resume_ckpt a)) >>~
  let '(glide_model, glide_diffusion, glide_options) :=
    load_base_model ext (resume_ckpt a) (use_fp16 a) (dropout a)
      (freeze_transformer a) (freeze_diffusion a) (activation_checkpointing a) in
  text_ctx <~ dict_get glide_options "text_ctx" ;~
  emit (MakeDataset data_dir) >>~
  let dataset :=
    TextImageDataset ext data_dir (side_x a) (side_y a) (resize_ratio a)
      (uncond_p a) text_ctx (use_captions a) in
  py_assert (0 <? dataset_len dataset)%nat "Dataset is empty" >>~
  emit (Print (MsgDatasetContains (dataset_len dataset))) >>~
  dataloader <~ DataLoader dataset (batch_size a) ;~
  optimizer <~ make_optimizer glide_model (use_sgd a) (learning_rate a) ;~
  let outputs_dir := "./outputs"%string in
  emit (Makedirs outputs_dir) >>~
  emit ModelTo >>~
  emit ModelTrain >>~
  emit ModelZeroGrad >>~
  for_loop (seq 0 (Z.to_nat (num_epochs a)))
    (fun epoch =>
       emit (Print (MsgStartingEpoch epoch)) >>~
       run_glide_finetune_epoch (generator ext) (sampler_draws ext)
         glide_model glide_diffusion glide_options optimizer
         (sample_bs a) (test_prompt a) outputs_dir checkpoints_dir
         (log_frequency a) wandb_run (dataloader epoch))
    None >>~
  ret tt.

(** ** What the events do to the gradients, the weights and the disk *)

(** The losses whose gradients sit in the buffers, the updates applied so
    far (each with the losses it was computed from), and the files written
    (each with the number of updates its weights had seen). *)
Record machine : Type := mkMachine {
  grads : list Qc;
  steps : list (list Qc);
  files : gmap string nat
}.

(** Modelled from the spec: [fp16_util.MixedPrecisionTrainer] is not among
    the sources; the spec has it perform the backward passes and the
    optimizer steps and zero the gradients.  Zeroing empties the gradient
    buffers, a backward pass adds the gradient of its loss to them, an
    optimizer call applies one update from what the buffers hold, and
    [th.save] stores the weights as they are at that moment. *)
Definition handle (m : machine) (e : event) : machine :=
  match e with
  | ModelZeroGrad | TrainerZeroGrad => mkMachine [] (steps m) (files m)
  | TrainerBackward loss => mkMachine (grads m ++ [loss]) (steps m) (files m)
  | TrainerOptimize _ => mkMachine (grads m) (steps m ++ [grads m]) (files m)
  | ThSave path => mkMachine (grads m) (steps m) (<[path := length (steps m)]> (files m))
  | _ => m
  end.

Definition interp (tr : list event) : machine :=
  fold_left handle tr (mkMachine [] [] ∅).

(** ** Observations on a trace *)

Definition saved_paths (tr : list event) : list string :=
  flat_map (fun e => match e with ThSave p => [p] | _ => [] end) tr.

Definition counter_values (tr : list event) : list nat :=
  flat_map (fun e => match e with LoopIter i => [i] | _ => [] end) tr.

Definition log_records (tr : list event) : list (gmap string log_value) :=
  flat_map (fun e => match e with WandbLog r => [r] | _ => [] end) tr.

Definition is_grad_event (e : event) : bool :=
  match e with
  | ModelZeroGrad | TrainerZeroGrad | TrainerBackward _ | TrainerOptimize _ => true
  | _ => false
  end.

Definition is_training_event (e : event) : bool :=
  match e with
  | LoopIter _ | TrainerBackward _ | TrainerOptimize _ | UtilSample _ _
  | ImageSave _ | ThSave _ => true
  | _ => false
  end.

Definition initial_world : world := mkWorld [] 0.

(** ** The loss in the words of the specification

    The per-example mean over channel, height and width of the squared
    difference between the noise and the first channels of the model output,
    averaged over the batch. *)

Definition spec_example_error (noise pred : Tensor) (b : nat) : Qc :=
  (Qsum (map (fun c =>
     Qsum (map (fun h =>
       Qsum (map (fun w => (data noise b c h w - data pred b c h w) ^ 2)
                 (seq 0 (dim3 noise))))
       (seq 0 (dim2 noise))))
     (seq 0 (dim1 noise)))
   / Qc_of_nat (dim1 noise * dim2 noise * dim3 noise))%Qc.

Definition spec_loss (noise pred : Tensor) : Qc :=
  (Qsum (map (spec_example_error noise pred) (seq 0 (dim0 noise)))
   / Qc_of_nat (dim0 noise))%Qc.

(** The same with the difference taken the other way round. *)
Definition spec_loss_swapped (noise pred : Tensor) : Qc :=
  (Qsum (map (fun b =>
     Qsum (map (fun c =>
       Qsum (map (fun h =>
         Qsum (map (fun w => (data pred b c h w - data noise b c h w) ^ 2)
                   (seq 0 (dim3 noise))))
         (seq 0 (dim2 noise))))
       (seq 0 (dim1 noise)))
     / Qc_of_nat (dim1 noise * dim2 noise * dim3 noise))
     (seq 0 (dim0 noise)))
   / Qc_of_nat (dim0 noise))%Qc.

(** ** Values of the training step *)

Section TrainStepValues.

Variable g : Generator.
Variable glide_model : Text2ImUNet.
Variable glide_diffusion : SpacedDiffusion.

(** The values the step computes on the way, for a batch and a generator
    position. *)
Definition step_timesteps (x_start : Tensor) (pos : nat) : list Z :=
  randint_values g 0 (Z.of_nat (length (betas glide_diffusion)) - 1)
                 (dim0 x_start) pos.

Definition step_noise (x_start : Tensor) (pos : nat) : Tensor :=
  randn_values g x_start (pos + dim0 x_start).

Definition step_x_t (x_start : Tensor) (pos : nat) : Tensor :=
  q_sample glide_diffusion x_start (step_timesteps x_start pos)
           (step_noise x_start pos).

Definition step_output (batch : Batch) (pos : nat) : Tensor :=
  let '(tokens, masks, x_start) := batch in
  forward glide_model (step_x_t x_start pos) (step_timesteps x_start pos)
          tokens masks.

Definition step_world (batch : Batch) (w : world) : world :=
  mkWorld (trace w) (rng w + dim0 (snd batch) + numel (snd batch))%nat.

(** The shape conditions under which the step goes through: the forward
    process keeps the shape of the image, and the network keeps batch size,
    height and width and returns between C+1 and 2C channels. *)
Definition shapes_fit (batch : Batch) (pos : nat) : Prop :=
  let x_start := snd batch in
  shape (step_x_t x_start pos) = shape x_start /\
  dim0 (step_output batch pos) = dim0 x_start /\
  dim2 (step_output batch pos) = dim2 x_start /\
  dim3 (step_output batch pos) = dim3 x_start /\
  (dim1 x_start < dim1 (step_output batch pos))%nat /\
  (dim1 (step_output batch pos) <= 2 * dim1 x_start)%nat.

End TrainStepValues.

(** ** The loop variable after a loop *)

Fixpoint final_binding {A : Type} (xs : list A) (last : option A) : option A :=
  match xs with
  | [] => last
  | x :: xs' => final_binding xs' (Some x)
  end.

(** ** Events of one epoch *)

Section EpochEvents.

Variable g : Generator.
Variable sample_draws : nat.
Variable glide_model : Text2ImUNet.
Variable glide_diffusion : SpacedDiffusion.
Variable glide_options : gmap string pyval.
Variable optimizer : Optimizer.
Variable sample_bs : Z.
Variable prompt : string.
Variable outputs_dir checkpoints_dir : string.
Variable log_frequency : Z.
Variable wandb_run : option string.

(** The step goes through on this batch whatever the state, and leaves
    the trace alone. *)
Definition step_ok (batch : Batch) : Prop :=
  forall w, exists loss w',
    train_step g glide_model glide_diffusion batch w = (inr loss, w') /\
    trace w' = trace w.

Definition is_loss (batch : Batch) (loss : Qc) : Prop :=
  exists w, fst (train_step g glide_model glide_diffusion batch w) = inr loss.

Definition loss_due (i : nat) : bool := negb (Z.of_nat i mod 10 =? 0).

Definition sample_due (i : nat) : bool :=
  (0 <? Z.of_nat i) && (Z.of_nat i mod log_frequency =? 0).

Definition checkpoint_due (i : nat) : bool :=
  (Z.of_nat i mod 1000 =? 0) && (0 <? Z.of_nat i).

Definition sample_path (i : nat) : string :=
  os_path_join outputs_dir (pretty i +:+ ".png").

Definition checkpoint_path (i : nat) : string :=
  os_path_join checkpoints_dir (checkpoint_name i).

(** The record passed to the tracker in iteration [i] with loss [l]. *)
Definition iter_log (i : nat) (l : Qc) : gmap string log_value :=
  let log : gmap string log_value :=
    if loss_due i then
      <["loss" := VFloat l]> (<["iter" := VInt (Z.of_nat i)]> ∅)
    else ∅ in
  if sample_due i then
    <["samples" := VImage (sample_path i) prompt]>
      (<["iter" := VInt (Z.of_nat i)]> log)
  else log.

(** The events of iteration [i] with loss [l], in order. *)
Definition iter_events (il : nat * Qc) : list event :=
  let '(i, l) := il in
  [LoopIter i; TrainerBackward l; TrainerOptimize optimizer; TrainerZeroGrad]
  ++ (if loss_due i then [TqdmWrite (MsgLoss l)] else [])
  ++ (if sample_due i then
        [Print (MsgSampling i); UtilSample prompt sample_bs;
         ImageSave (sample_path i); Print (MsgSavedSample (sample_path i))]
      else [])
  ++ (if checkpoint_due i then
        [ThSave (checkpoint_path i);
         Print (MsgSavedCheckpoint i checkpoints_dir);
         Print (MsgSavedCheckpoint i checkpoints_dir)]
      else [])
  ++ [WandbLog (iter_log i l)].

(** The events of one call of the epoch function on a loader, given the
    (index, loss) pairs of its iterations. *)
Definition epoch_tail (n : nat) : list event :=
  match n with
  | O => []
  | S n' => [ThSave (checkpoint_path n');
             Print (MsgSavedCheckpoint n' checkpoints_dir)]
  end.

Definition epoch_events (fp : pyval) (ils : list (nat * Qc)) : list event :=
  [Makedirs checkpoints_dir; NewTrainer fp; TrainerZeroGrad]
  ++ flat_map iter_events ils
  ++ [Print MsgFinished]
  ++ epoch_tail (length ils).

Definition epoch_result (n : nat) : exn + unit :=
  match n with
  | O => inl UnboundLocalError
  | S _ => inr tt
  end.

End EpochEvents.

(** ** Events of a whole run *)

Section RunEvents.

Variable ext : Externals.
Variable a : Args.
Variable glide_model : Text2ImUNet.
Variable glide_diffusion : SpacedDiffusion.
Variable glide_options : gmap string pyval.
Variable text_ctx fp : pyval.

(** What the driver computes before the epochs start. *)
Definition run_checkpoints_dir : string := resolve_dir ext (checkpoints_dir a).

Definition run_dataset : Dataset :=
  TextImageDataset ext (resolve_dir ext (data_dir a)) (side_x a) (side_y a)
    (resize_ratio a) (uncond_p a) text_ctx (use_captions a).

Definition run_loader (epoch : nat) : list Batch :=
  loader_batches run_dataset (batch_size a) epoch.

Definition run_tracker : option string :=
  wandb_setup ext (batch_size a) (side_x a) (side_y a) (learning_rate a)
    (use_fp16 a) (resolve_dir ext (data_dir a)) run_checkpoints_dir
    (project_name a).

Definition run_optimizer : Optimizer :=
  optimizer_object glide_model (use_sgd a) (learning_rate a).

Definition run_step_ok : Batch -> Prop :=
  step_ok (generator ext) glide_model glide_diffusion.

Definition run_is_loss : Batch -> Qc -> Prop :=
  is_loss (generator ext) glide_model glide_diffusion.

(** The events up to the check of the dataset, and up to the first epoch. *)
Definition setup_events : list event :=
  [Makedirs run_checkpoints_dir; WandbSetup (project_name a);
   Print MsgWandbSetup; LoadBaseModel (resume_ckpt a);
   MakeDataset (resolve_dir ext (data_dir a))].

Definition start_events : list event :=
  setup_events ++
  [Print (MsgDatasetContains (dataset_len run_dataset));
   Makedirs "./outputs"; ModelTo; ModelTrain; ModelZeroGrad].

(** The events of epoch [e], given the (index, loss) pairs of its
    iterations. *)
Definition run_epoch_events (ils : list (nat * Qc)) : list event :=
  epoch_events run_optimizer (sample_bs a) (test_prompt a) "./outputs"
    run_checkpoints_dir (log_frequency a) fp ils.

Definition epoch_block (p : nat * list (nat * Qc)) : list event :=
  Print (MsgStartingEpoch (fst p)) :: run_epoch_events (snd p).

(** Each epoch's pairs carry the indices 0, 1, ... of its loader and a loss
    of each of its batches. *)
Definition epoch_pairs_ok (p : nat * list (nat * Qc)) : Prop :=
  map fst (snd p) = seq 0 (length (run_loader (fst p))) /\
  Forall2 (fun b il => run_is_loss b (snd il)) (run_loader (fst p)) (snd p).

End RunEvents.

(** ** What any part of the program may do

    Whatever the inputs, a computation of the script only ever adds events
    to the trace, and the only assertion is the one on the dataset. *)

Definition not_assertion (e : exn) : Prop :=
  forall msg, e <> AssertionError msg.

Definition tame {A : Type} (m : M A) : Prop :=
  forall w,
    (exists t, trace (snd (m w)) = trace w ++ t) /\
    (forall e, fst (m w) = inl e -> not_assertion e).

(** ** More observations on a trace *)

Definition optimizers_used (tr : list event) : list Optimizer :=
  flat_map (fun e => match e with TrainerOptimize o => [o] | _ => [] end) tr.

Definition optimizer_params (o : Optimizer) : list Param :=
  match o with SGD ps _ _ | AdamW ps _ _ => ps end.

Definition optimizer_lr (o : Optimizer) : Qc :=
  match o with SGD _ lr _ | AdamW _ lr _ => lr end.

(** ** A small instance

    Two-channel images of one pixel, a network that returns [m] channels of
    one half, a schedule of three steps, a forward process that returns the
    clean image, and a generator whose integers count up and whose normal
    draws are all one. *)

Definition toy_tensor (b c : nat) : Tensor :=
  mkTensor b c 1 1 (fun _ _ _ _ => Q2Qc 0).

Definition toy_model (m : nat) : Text2ImUNet :=
  mkModel
    (fun x _ _ _ => mkTensor (dim0 x) m (dim2 x) (dim3 x) (fun _ _ _ _ => Q2Qc (1 # 2)))
    [mkParam "token_embedding" true; mkParam "frozen" false; mkParam "out" true].

Definition toy_diffusion : SpacedDiffusion :=
  mkDiffusion [Q2Qc 0; Q2Qc 0; Q2Qc 0] (fun x _ _ => x).

Definition toy_generator : Generator :=
  mkGenerator (fun i => Z.of_nat i) (fun _ => Q2Qc 1).

Definition toy_batch : Batch := ([[1]], [[true]], toy_tensor 1 2).

Definition toy_options : gmap string pyval :=
  <["use_fp16" := PBool false]> (<["text_ctx" := PInt 128]> ∅).

Definition toy_dataset (n : nat) : Dataset :=
  mkDataset n (fun _ _ => repeat toy_batch n).

Definition toy_ext (m n : nat) : Externals :=
  mkExternals (fun s => s)
    (fun _ _ _ _ _ _ _ project_name => Some project_name)
    (fun _ _ _ _ _ _ => (toy_model m, toy_diffusion, toy_options))
    (fun _ _ _ _ _ _ _ => toy_dataset n)
    toy_generator 7.

Definition toy_args (epochs : Z) : Args :=
  mkArgs "./data" 1 (Q2Qc (1 # 100000)) (Q2Qc (1 # 10)) 64 64 (Q2Qc 1) (Q2Qc 0)
         "" "./ckpt/" false false false "glide_finetune" true true epochs 100
         "a prompt" 1 false.

(** ** Observations on sampling *)

Definition image_paths (tr : list event) : list string :=
  flat_map (fun e => match e with ImageSave p => [p] | _ => [] end) tr.

Definition sampler_calls (tr : list event) : list (string * Z) :=
  flat_map (fun e => match e with UtilSample p b => [(p, b)] | _ => [] end) tr.

(** ** Ways to fail *)


(** The small instance with another options mapping. *)
Definition toy_ext_with (o : gmap string pyval) (m n : nat) : Externals :=
  mkExternals (fun s => s)
    (fun _ _ _ _ _ _ _ project_name => Some project_name)
    (fun _ _ _ _ _ _ => (toy_model m, toy_diffusion, o))
    (fun _ _ _ _ _ _ _ => toy_dataset n)
    toy_generator 7.


(** * Properties *)

(** ** Sums and tensors *)

Lemma Qsum_app (l1 l2 : list Qc) : Qsum (l1 ++ l2) = (Qsum l1 + Qsum l2)%Qc.
Proof.
  induction l1 as [|x l1 IH]; simpl.
  - ring.
  - rewrite IH. ring.
Qed.

Lemma Qsum_flat_map {A : Type} (f : A -> list Qc) (l : list A) :
  Qsum (flat_map f l) = Qsum (map (fun a => Qsum (f a)) l).
Proof.
  induction l as [|a l IH]; simpl; [reflexivity|].
  rewrite Qsum_app, IH. reflexivity.
Qed.

Lemma length_flat_map_const {A B : Type} (f : A -> list B) (l : list A) (n : nat) :
  (forall a, length (f a) = n) -> length (flat_map f l) = (length l * n)%nat.
Proof.
  intros Hf. induction l as [|a l IH]; simpl; [reflexivity|].
  rewrite length_app, IH, Hf. reflexivity.
Qed.

Lemma length_flatten_example (t : Tensor) (b : nat) :
  length (flatten_example t b) = (dim1 t * dim2 t * dim3 t)%nat.
Proof.
  unfold flatten_example.
  rewrite (length_flat_map_const _ _ (dim2 t * dim3 t)).
  - rewrite length_seq. lia.
  - intros c. rewrite (length_flat_map_const _ _ (dim3 t)).
    + rewrite length_seq. reflexivity.
    + intros h. rewrite length_map, length_seq. reflexivity.
Qed.

Lemma Qsum_flatten_example (t : Tensor) (b : nat) :
  Qsum (flatten_example t b) =
  Qsum (map (fun c =>
    Qsum (map (fun h =>
      Qsum (map (fun w => data t b c h w) (seq 0 (dim3 t))))
      (seq 0 (dim2 t))))
    (seq 0 (dim1 t))).
Proof.
  unfold flatten_example. rewrite Qsum_flat_map. f_equal.
  apply map_ext. intros c. apply Qsum_flat_map.
Qed.

Lemma map_seq_ext {A : Type} (f g : nat -> A) (n : nat) :
  (forall i, (i < n)%nat -> f i = g i) -> map f (seq 0 n) = map g (seq 0 n).
Proof.
  intros H. apply map_ext_in. intros i Hi. apply in_seq in Hi. apply H. lia.
Qed.

Lemma broadcast_dim_same (a : nat) : broadcast_dim a a = Some a.
Proof. unfold broadcast_dim. rewrite Nat.eqb_refl. reflexivity. Qed.

Lemma broadcast_dim_comm (a b : nat) : broadcast_dim a b = broadcast_dim b a.
Proof.
  unfold broadcast_dim.
  destruct (Nat.eqb_spec a b) as [->|Hab].
  - rewrite Nat.eqb_refl. reflexivity.
  - destruct (Nat.eqb_spec b a) as [->|_]; [congruence|].
    destruct (Nat.eqb_spec a 1), (Nat.eqb_spec b 1); subst; congruence.
Qed.

Lemma bidx_lt (d i : nat) : (i < d)%nat -> bidx d i = i.
Proof.
  unfold bidx. destruct (Nat.eqb_spec d 1); [lia | reflexivity].
Qed.

Lemma Qc_sq_swap (x y : Qc) : ((x - y) ^ 2 = (y - x) ^ 2)%Qc.
Proof. simpl. ring. Qed.

(** Tensors of equal shape whose entries agree inside the shape have the
    same per-example means. *)
Lemma mean_flat_ext (t1 t2 : Tensor) :
  shape t1 = shape t2 ->
  (forall b c h w, (b < dim0 t1)%nat -> (c < dim1 t1)%nat ->
                   (h < dim2 t1)%nat -> (w < dim3 t1)%nat ->
                   data t1 b c h w = data t2 b c h w) ->
  mean_flat t1 = mean_flat t2.
Proof.
  unfold shape. intros Hs Hd. injection Hs as H0 H1 H2 H3.
  unfold mean_flat. rewrite <- H0.
  apply map_seq_ext. intros b Hb.
  unfold mean. rewrite !length_flatten_example, !Qsum_flatten_example.
  rewrite <- H1, <- H2, <- H3. f_equal.
  f_equal. apply map_seq_ext. intros c Hc.
  f_equal. apply map_seq_ext. intros h Hh.
  f_equal. apply map_seq_ext. intros w Hw.
  apply Hd; assumption.
Qed.

Lemma squared_error_loss_comm (a b : Tensor) :
  squared_error_loss a b = squared_error_loss b a.
Proof.
  unfold squared_error_loss, tensor_sub.
  rewrite (broadcast_dim_comm (dim0 b)), (broadcast_dim_comm (dim1 b)),
          (broadcast_dim_comm (dim2 b)), (broadcast_dim_comm (dim3 b)).
  destruct (broadcast_dim (dim0 a) (dim0 b)); [|reflexivity].
  destruct (broadcast_dim (dim1 a) (dim1 b)); [|reflexivity].
  destruct (broadcast_dim (dim2 a) (dim2 b)); [|reflexivity].
  destruct (broadcast_dim (dim3 a) (dim3 b)); [|reflexivity].
  f_equal. f_equal. apply mean_flat_ext; [reflexivity|].
  intros; simpl. apply Qc_sq_swap.
Qed.

Lemma squared_error_loss_spec (noise out : Tensor) :
  dim0 out = dim0 noise -> dim2 out = dim2 noise -> dim3 out = dim3 noise ->
  (dim1 noise <= dim1 out)%nat ->
  squared_error_loss noise (split_chunk out (dim1 noise) 0) =
  inr (spec_loss noise out).
Proof.
  intros H0 H2 H3 H1.
  unfold squared_error_loss, tensor_sub. simpl.
  rewrite H0, H2, H3, Nat.sub_0_r, Nat.min_l by assumption.
  rewrite !broadcast_dim_same. f_equal.
  unfold mean, mean_flat, spec_loss. simpl.
  rewrite length_map, length_seq. f_equal. f_equal.
  apply map_seq_ext. intros b Hb.
  unfold mean, spec_example_error.
  rewrite length_flatten_example, Qsum_flatten_example. simpl. f_equal.
  f_equal. apply map_seq_ext. intros c Hc.
  f_equal. apply map_seq_ext. intros h Hh.
  f_equal. apply map_seq_ext. intros w Hw.
  rewrite !bidx_lt by assumption. reflexivity.
Qed.

Lemma spec_loss_swap (noise pred : Tensor) :
  spec_loss noise pred = spec_loss_swapped noise pred.
Proof.
  unfold spec_loss, spec_loss_swapped, spec_example_error. f_equal. f_equal.
  apply map_ext. intros b. f_equal. f_equal.
  apply map_ext. intros c. f_equal.
  apply map_ext. intros h. f_equal.
  apply map_ext. intros w. apply Qc_sq_swap.
Qed.

(** ** The channel-wise split *)

Lemma chunk_count_two (C M : nat) :
  (C < M)%nat -> (M <= 2 * C)%nat -> Nat.max ((M + C - 1) / C) 1 = 2%nat.
Proof.
  intros H1 H2.
  assert (HC : (0 < C)%nat) by lia.
  assert (Hd : ((M + C - 1) / C = 2)%nat).
  { symmetry. apply (Nat.div_unique _ _ 2%nat (M + C - 1 - 2 * C)); lia. }
  rewrite Hd. reflexivity.
Qed.

Lemma chunk_count_one (C M : nat) :
  (0 < C)%nat -> (M <= C)%nat -> Nat.max ((M + C - 1) / C) 1 = 1%nat.
Proof.
  intros HC HM.
  assert (Hd : ((M + C - 1) / C <= 1)%nat).
  { assert (Hlt : ((M + C - 1) / C < 2)%nat); [|lia].
    apply Nat.Div0.div_lt_upper_bound. lia. }
  lia.
Qed.

Lemma chunk_count_many (C M : nat) :
  (0 < C)%nat -> (2 * C < M)%nat -> (3 <= Nat.max ((M + C - 1) / C) 1)%nat.
Proof.
  intros HC HM.
  assert (Hd : (3 <= (M + C - 1) / C)%nat).
  { apply Nat.div_le_lower_bound; lia. }
  lia.
Qed.

Lemma th_split_two (t : Tensor) (C : nat) :
  (C < dim1 t)%nat -> (dim1 t <= 2 * C)%nat ->
  th_split t C = inr [split_chunk t C 0; split_chunk t C 1].
Proof.
  intros H1 H2. unfold th_split.
  destruct (Nat.eqb_spec C 0) as [->|HC]; [lia|].
  rewrite chunk_count_two by assumption. reflexivity.
Qed.

Lemma th_split_one (t : Tensor) (C : nat) :
  (0 < C)%nat -> (dim1 t <= C)%nat -> th_split t C = inr [split_chunk t C 0].
Proof.
  intros H1 H2. unfold th_split.
  destruct (Nat.eqb_spec C 0) as [->|HC]; [lia|].
  rewrite chunk_count_one by assumption. reflexivity.
Qed.

Lemma th_split_many (t : Tensor) (C : nat) :
  (0 < C)%nat -> (2 * C < dim1 t)%nat ->
  exists x y z rest, th_split t C = inr (x :: y :: z :: rest).
Proof.
  intros H1 H2. unfold th_split.
  destruct (Nat.eqb_spec C 0) as [->|HC]; [lia|].
  pose proof (chunk_count_many C (dim1 t) H1 H2) as Hn.
  destruct (Nat.max ((dim1 t + C - 1) / C) 1) as [|[|[|n]]]; try lia.
  simpl. eauto 10.
Qed.

(** ** The training step *)

Lemma draw_timesteps_ok (g : Generator) (d : SpacedDiffusion) (x : Tensor) (w : world) :
  (2 <= length (betas d))%nat ->
  draw_timesteps g d x w =
  (inr (randint_values g 0 (Z.of_nat (length (betas d)) - 1) (dim0 x) (rng w)),
   mkWorld (trace w) (rng w + dim0 x)%nat).
Proof.
  intros HT. unfold draw_timesteps, th_randint.
  destruct (Z.leb_spec (Z.of_nat (length (betas d)) - 1) 0); [lia | reflexivity].
Qed.

Lemma randint_values_range (g : Generator) (low high : Z) (size pos : nat) :
  low < high ->
  Forall (fun t => low <= t < high) (randint_values g low high size pos).
Proof.
  intros Hlt. unfold randint_values. apply Forall_forall.
  intros t Ht. apply list_elem_of_In, in_map_iff in Ht as [i [<- _]].
  pose proof (Z.mod_pos_bound (randint_raw g (pos + i)%nat) (high - low)).
  lia.
Qed.

Lemma length_randint_values (g : Generator) (low high : Z) (size pos : nat) :
  length (randint_values g low high size pos) = size.
Proof. unfold randint_values. rewrite length_map, length_seq. reflexivity. Qed.

Section TrainStep.

Variable g : Generator.
Variable glide_model : Text2ImUNet.
Variable glide_diffusion : SpacedDiffusion.

Local Abbreviation step_timesteps := (step_timesteps g glide_diffusion).
Local Abbreviation step_noise := (step_noise g).
Local Abbreviation step_x_t := (step_x_t g glide_diffusion).
Local Abbreviation step_output := (step_output g glide_model glide_diffusion).
Local Abbreviation shapes_fit := (shapes_fit g glide_model glide_diffusion).

(** The step up to the unpacking of the split. *)
Lemma train_step_unfold (batch : Batch) (w : world) :
  (2 <= length (betas glide_diffusion))%nat ->
  train_step g glide_model glide_diffusion batch w =
  match th_split (step_output batch (rng w))
                 (dim1 (step_x_t (snd batch) (rng w))) with
  | inl e => (inl e, step_world batch w)
  | inr chunks =>
      match unpack2 chunks with
      | inl e => (inl e, step_world batch w)
      | inr halves =>
          (squared_error_loss (step_noise (snd batch) (rng w)) (fst halves),
           step_world batch w)
      end
  end.
Proof.
  intros HT. destruct batch as [[tokens masks] x_start].
  unfold train_step, bind. rewrite draw_timesteps_ok by assumption.
  unfold th_randn_like, lift, step_output, step_x_t, step_noise,
    step_timesteps, step_world. simpl.
  destruct (th_split _ _) as [e|chunks]; [reflexivity|].
  destruct (unpack2 chunks) as [e|halves]; reflexivity.
Qed.

Lemma train_step_returns (batch : Batch) (w : world) :
  (2 <= length (betas glide_diffusion))%nat ->
  shapes_fit batch (rng w) ->
  train_step g glide_model glide_diffusion batch w =
  (inr (spec_loss (step_noise (snd batch) (rng w)) (step_output batch (rng w))),
   step_world batch w).
Proof.
  intros HT (Hx & H0 & H2 & H3 & Hlo & Hhi).
  rewrite train_step_unfold by assumption.
  unfold shape in Hx. injection Hx as _ Hx1 _ _. rewrite Hx1.
  rewrite th_split_two by assumption. simpl.
  rewrite <- squared_error_loss_spec; [reflexivity|simpl; lia..].
Qed.

End TrainStep.

(** ** The monad *)

Lemma bind_emit {B : Type} (e : event) (k : unit -> M B) (w : world) :
  bind (emit e) k w = k tt (mkWorld (trace w ++ [e]) (rng w)).
Proof. reflexivity. Qed.

Lemma bind_ret {A B : Type} (a : A) (k : A -> M B) (w : world) :
  bind (ret a) k w = k a w.
Proof. reflexivity. Qed.

Lemma bind_ok {A B : Type} (m : M A) (k : A -> M B) (w w' : world) (a : A) :
  m w = (inr a, w') -> bind m k w = k a w'.
Proof. intros H. unfold bind. rewrite H. reflexivity. Qed.

(** ** The optimizer constructors *)

Lemma Qc_negative_false (x : Qc) : (0 <= x)%Qc -> Qc_negative x = false.
Proof.
  intros H. unfold Qc_negative.
  destruct (x ?= Q2Qc 0)%Qc eqn:E; try reflexivity.
  apply Qclt_alt in E. apply Qcle_not_lt in H. contradiction.
Qed.

Lemma Qc_negative_true (x : Qc) : (x < 0)%Qc -> Qc_negative x = true.
Proof.
  intros H. unfold Qc_negative, Qccompare. unfold Qclt in H.
  apply Qlt_alt in H. unfold Qcompare in *. rewrite H. reflexivity.
Qed.

Lemma trainable_nonempty (glide_model : Text2ImUNet) :
  (exists p, In p (parameters glide_model) /\ requires_grad p = true) ->
  List.filter (fun x => requires_grad x) (parameters glide_model) <> [].
Proof.
  intros (p & Hin & Hp) Hnil.
  assert (H : In p (List.filter (fun x => requires_grad x) (parameters glide_model)))
    by (apply filter_In; split; assumption).
  rewrite Hnil in H. exact H.
Qed.

Lemma trainable_empty (glide_model : Text2ImUNet) :
  (forall p, In p (parameters glide_model) -> requires_grad p = false) ->
  List.filter (fun x => requires_grad x) (parameters glide_model) = [].
Proof.
  intros H. induction (parameters glide_model) as [|p ps IH]; [reflexivity|].
  cbn [List.filter]. rewrite (H p) by (left; reflexivity).
  apply IH. intros q Hq. apply H. right. exact Hq.
Qed.

(** On a learning rate that is not negative and a model with a parameter to
    train, the constructor hands back its optimizer and touches nothing. *)
Lemma make_optimizer_ok (glide_model : Text2ImUNet) (use_sgd : bool)
    (learning_rate : Qc) (w : world) :
  (0 <= learning_rate)%Qc ->
  (exists p, In p (parameters glide_model) /\ requires_grad p = true) ->
  make_optimizer glide_model use_sgd learning_rate w =
  (inr (optimizer_object glide_model use_sgd learning_rate), w).
Proof.
  intros Hlr Htr. apply trainable_nonempty in Htr.
  unfold make_optimizer, optimizer_object, th_optim_SGD, th_optim_AdamW.
  rewrite (Qc_negative_false _ Hlr).
  change (Qc_negative (Q2Qc (9 # 10))) with false.
  change (Qc_negative (Q2Qc 0)) with false.
  destruct (List.filter (fun x => requires_grad x) (parameters glide_model));
    [congruence|].
  destruct use_sgd; reflexivity.
Qed.

(** Otherwise it raises [ValueError]. *)
Lemma make_optimizer_refuses (glide_model : Text2ImUNet) (use_sgd : bool)
    (learning_rate : Qc) (w : world) :
  (learning_rate < 0)%Qc \/
  (forall p, In p (parameters glide_model) -> requires_grad p = false) ->
  make_optimizer glide_model use_sgd learning_rate w = (inl ValueError, w).
Proof.
  unfold make_optimizer, th_optim_SGD, th_optim_AdamW.
  change (Qc_negative (Q2Qc (9 # 10))) with false.
  change (Qc_negative (Q2Qc 0)) with false.
  intros [Hlr|Hnone].
  - rewrite (Qc_negative_true _ Hlr). destruct use_sgd; reflexivity.
  - rewrite (trainable_empty _ Hnone).
    destruct use_sgd, (Qc_negative learning_rate); reflexivity.
Qed.

(** ** One pass over the loader *)

Lemma map_fst_enumerate_from {A : Type} (xs : list A) :
  forall start, map fst (enumerate_from start xs) = seq start (length xs).
Proof.
  induction xs as [|x xs IH]; intros start; simpl; [reflexivity|].
  rewrite IH. reflexivity.
Qed.

Lemma final_binding_enumerate_from {A : Type} (xs : list A) :
  forall start x last,
    exists y, final_binding (enumerate_from start (x :: xs)) last =
              Some ((start + length xs)%nat, y).
Proof.
  induction xs as [|x' xs IH]; intros start x last.
  - exists x. simpl. rewrite Nat.add_0_r. reflexivity.
  - destruct (IH (S start) x' (Some (start, x))) as [y Hy].
    exists y. simpl in *. rewrite Hy. f_equal. f_equal. lia.
Qed.

Lemma Forall_enumerate_from {A : Type} (P : A -> Prop) (xs : list A) :
  forall start,
    Forall P xs -> Forall (fun it => P (snd it)) (enumerate_from start xs).
Proof.
  induction xs as [|x xs IH]; intros start H; simpl; [constructor|].
  apply Forall_cons_1 in H as [Hx Hxs]. constructor; [exact Hx | auto].
Qed.

Lemma Forall2_enumerate_from {A B : Type} (P : A -> B -> Prop) (xs : list A) :
  forall start ys,
    Forall2 (fun it y => P (snd it) y) (enumerate_from start xs) ys ->
    Forall2 P xs ys.
Proof.
  induction xs as [|x xs IH]; intros start ys H; simpl in H.
  - inversion H. constructor.
  - inversion H; subst. constructor; [assumption | eauto].
Qed.

(** ** Observations and concatenation *)

Lemma filter_flat_map {A B : Type} (p : B -> bool) (f : A -> list B) (l : list A) :
  List.filter p (flat_map f l) = flat_map (fun a => List.filter p (f a)) l.
Proof.
  induction l as [|a l IH]; simpl; [reflexivity|].
  rewrite List.filter_app, IH. reflexivity.
Qed.

Lemma flat_map_flat_map {A B C : Type} (f : B -> list C) (h : A -> list B) (l : list A) :
  flat_map f (flat_map h l) = flat_map (fun a => flat_map f (h a)) l.
Proof.
  induction l as [|a l IH]; simpl; [reflexivity|].
  rewrite flat_map_app, IH. reflexivity.
Qed.

Lemma flat_map_map {A B C : Type} (f : B -> list C) (h : A -> B) (l : list A) :
  flat_map f (map h l) = flat_map (fun a => f (h a)) l.
Proof.
  induction l as [|a l IH]; simpl; [reflexivity|]. rewrite IH. reflexivity.
Qed.

Lemma flat_map_singleton {A B : Type} (h : A -> B) (l : list A) :
  flat_map (fun a => [h a]) l = map h l.
Proof.
  induction l as [|a l IH]; simpl; [reflexivity|]. rewrite IH. reflexivity.
Qed.

Lemma saved_paths_app (t1 t2 : list event) :
  saved_paths (t1 ++ t2) = saved_paths t1 ++ saved_paths t2.
Proof. apply flat_map_app. Qed.


Lemma log_records_app (t1 t2 : list event) :
  log_records (t1 ++ t2) = log_records t1 ++ log_records t2.
Proof. apply flat_map_app. Qed.

Lemma interp_app (t1 t2 : list event) :
  interp (t1 ++ t2) = fold_left handle t2 (interp t1).
Proof. unfold interp. apply fold_left_app. Qed.

Section EpochProps.

Variable g : Generator.
Variable sample_draws : nat.
Variable glide_model : Text2ImUNet.
Variable glide_diffusion : SpacedDiffusion.
Variable glide_options : gmap string pyval.
Variable optimizer : Optimizer.
Variable sample_bs : Z.
Variable prompt : string.
Variable outputs_dir checkpoints_dir : string.
Variable log_frequency : Z.
Variable wandb_run : option string.

Local Abbreviation step_ok := (step_ok g glide_model glide_diffusion).
Local Abbreviation is_loss := (is_loss g glide_model glide_diffusion).
Local Abbreviation sample_due := (sample_due log_frequency).
Local Abbreviation sample_path := (sample_path outputs_dir).
Local Abbreviation checkpoint_path := (checkpoint_path checkpoints_dir).
Local Abbreviation iter_log := (iter_log prompt outputs_dir log_frequency).
Local Abbreviation iter_events :=
  (iter_events optimizer sample_bs prompt outputs_dir checkpoints_dir log_frequency).
Local Abbreviation epoch_tail := (epoch_tail checkpoints_dir).
Local Abbreviation epoch_events :=
  (epoch_events optimizer sample_bs prompt outputs_dir checkpoints_dir log_frequency).
Local Abbreviation body :=
  (epoch_body g sample_draws glide_model glide_diffusion optimizer sample_bs
              prompt outputs_dir checkpoints_dir log_frequency wandb_run).
Local Abbreviation epoch :=
  (run_glide_finetune_epoch g sample_draws glide_model glide_diffusion
     glide_options optimizer sample_bs prompt outputs_dir checkpoints_dir
     log_frequency wandb_run).

Hypothesis log_frequency_nonzero : log_frequency <> 0.
Hypothesis tracker_given : exists r, wandb_run = Some r.

Lemma epoch_body_spec (i : nat) (batch : Batch) (w : world) :
  step_ok batch ->
  exists loss w',
    body (i, batch) w = (inr tt, w') /\
    trace w' = trace w ++ iter_events (i, loss) /\
    is_loss batch loss.
Proof.
  intros Hok. destruct tracker_given as [r ->].
  unfold epoch_body. rewrite bind_emit.
  destruct (Hok (mkWorld (trace w ++ [LoopIter i]) (rng w)))
    as (loss & w1 & Hstep & Htr).
  exists loss.
  rewrite (bind_ok _ _ _ _ _ Hstep).
  unfold trainer_backward, trainer_optimize, trainer_zero_grad.
  rewrite !bind_emit.
  unfold iter_events, iter_log, loss_due, sample_due, checkpoint_due,
    py_mod, save_model, wandb_log, util_sample.
  destruct (Z.eqb_spec log_frequency 0) as [?|_]; [contradiction|].
  assert (Hl : is_loss batch loss) by (eexists; rewrite Hstep; reflexivity).
  unfold bind, ret, emit, raise. cbn beta iota.
  destruct (negb (Z.of_nat i mod 10 =? 0));
    destruct (0 <? Z.of_nat i);
    cbn beta iota;
    destruct (Z.of_nat i mod log_frequency =? 0);
    destruct (Z.of_nat i mod 1000 =? 0);
    cbn [andb fst snd trace rng];
    (eexists; split; [reflexivity|]; split; [|exact Hl]);
    cbn [trace]; rewrite Htr; cbn [trace];
    rewrite <- ?app_assoc; reflexivity.
Qed.

Lemma for_loop_spec (xs : list (nat * Batch)) :
  forall (last : option (nat * Batch)) (w : world),
    Forall (fun it => step_ok (snd it)) xs ->
    exists ils w',
      for_loop xs body last w = (inr (final_binding xs last), w') /\
      trace w' = trace w ++ flat_map iter_events ils /\
      map fst ils = map fst xs /\
      Forall2 (fun it il => is_loss (snd it) (snd il)) xs ils.
Proof.
  induction xs as [|[i batch] xs IH]; intros last w Hall.
  - exists [], w. simpl. rewrite app_nil_r. repeat split. constructor.
  - apply Forall_cons_1 in Hall as [Hb Hall]. simpl in Hb.
    destruct (epoch_body_spec i batch w Hb) as (loss & w1 & Hbody & Htr1 & Hl).
    destruct (IH (Some (i, batch)) w1 Hall) as (ils & w2 & Hloop & Htr2 & Hfst & Hls).
    exists ((i, loss) :: ils), w2.
    cbn [for_loop final_binding].
    rewrite (bind_ok _ _ _ _ _ Hbody). split; [exact Hloop|].
    split; [|split].
    + rewrite Htr2, Htr1. cbn [flat_map]. rewrite <- app_assoc. reflexivity.
    + simpl. rewrite Hfst. reflexivity.
    + constructor; assumption.
Qed.

Lemma epoch_spec (dataloader : list Batch) (w : world) (fp : pyval) :
  glide_options !! "use_fp16" = Some fp ->
  Forall step_ok dataloader ->
  exists ils w',
    epoch dataloader w = (epoch_result (length dataloader), w') /\
    trace w' = trace w ++ epoch_events fp ils /\
    map fst ils = seq 0 (length dataloader) /\
    Forall2 (fun b il => is_loss b (snd il)) dataloader ils.
Proof.
  intros Hfp Hall.
  unfold run_glide_finetune_epoch, dict_get, trainer_zero_grad.
  rewrite bind_emit, Hfp, bind_ret, !bind_emit.
  set (w0 := mkWorld _ _).
  destruct (for_loop_spec (enumerate dataloader) None w0)
    as (ils & w1 & Hloop & Htr & Hfst & Hls).
  { apply Forall_enumerate_from. exact Hall. }
  unfold enumerate in *. rewrite map_fst_enumerate_from in Hfst.
  apply (Forall2_enumerate_from (fun b il => is_loss b (snd il))) in Hls.
  assert (Hlen : length ils = length dataloader).
  { rewrite <- (length_map fst), Hfst, length_seq. reflexivity. }
  exists ils.
  rewrite (bind_ok _ _ _ _ _ Hloop), bind_emit.
  unfold epoch_events. rewrite Hlen.
  destruct dataloader as [|b bs].
  - eexists. cbn [final_binding enumerate_from epoch_result length epoch_tail].
    unfold raise. split; [reflexivity|]. cbn [trace].
    rewrite Htr. subst w0. cbn [trace].
    split; [|split; assumption].
    rewrite <- !app_assoc. reflexivity.
  - destruct (final_binding_enumerate_from bs 0%nat b None) as [y Hy].
    rewrite Hy. cbn [length epoch_result epoch_tail Nat.add].
    unfold save_model. rewrite bind_emit. unfold emit.
    eexists. split; [reflexivity|]. cbn [trace].
    rewrite Htr. subst w0. cbn [trace].
    split; [|split; assumption].
    rewrite <- !app_assoc. reflexivity.
Qed.

(** *** What one iteration shows to each observer *)

Lemma grad_events_iter (il : nat * Qc) :
  List.filter is_grad_event (iter_events il) =
  [TrainerBackward (snd il); TrainerOptimize optimizer; TrainerZeroGrad].
Proof.
  destruct il as [i l]. unfold iter_events. cbn [fst snd].
  destruct (loss_due i), (sample_due i), (checkpoint_due i); reflexivity.
Qed.


Lemma log_records_iter (il : nat * Qc) :
  log_records (iter_events il) = [iter_log (fst il) (snd il)].
Proof.
  destruct il as [i l]. unfold iter_events. cbn [fst snd].
  destruct (loss_due i), (sample_due i), (checkpoint_due i); reflexivity.
Qed.

Lemma saved_paths_iter (il : nat * Qc) :
  saved_paths (iter_events il) =
  if checkpoint_due (fst il) then [checkpoint_path (fst il)] else [].
Proof.
  destruct il as [i l]. unfold iter_events. cbn [fst snd].
  destruct (loss_due i), (sample_due i), (checkpoint_due i); reflexivity.
Qed.

Lemma handle_iter (m : machine) (il : nat * Qc) :
  grads m = [] ->
  fold_left handle (iter_events il) m =
  mkMachine [] (steps m ++ [[snd il]])
    (if checkpoint_due (fst il)
     then <[checkpoint_path (fst il) := S (length (steps m))]> (files m)
     else files m).
Proof.
  intros Hg. destruct il as [i l]. unfold iter_events. cbn [fst snd].
  destruct (loss_due i), (sample_due i), (checkpoint_due i);
    cbn; rewrite Hg; cbn; rewrite ?length_app; cbn;
    rewrite ?Nat.add_1_r; reflexivity.
Qed.

Lemma handle_iters (ils : list (nat * Qc)) :
  forall m, grads m = [] ->
    grads (fold_left handle (flat_map iter_events ils) m) = [] /\
    steps (fold_left handle (flat_map iter_events ils) m) =
    steps m ++ map (fun il => [snd il]) ils.
Proof.
  induction ils as [|il ils IH]; intros m Hg; cbn [flat_map map].
  - cbn. rewrite app_nil_r. auto.
  - rewrite fold_left_app, handle_iter by assumption.
    destruct (IH (mkMachine [] (steps m ++ [[snd il]])
                (if checkpoint_due (fst il)
                 then <[checkpoint_path (fst il) := S (length (steps m))]> (files m)
                 else files m)) eq_refl) as [H1 H2].
    split; [exact H1|]. rewrite H2. cbn [steps].
    rewrite <- app_assoc. reflexivity.
Qed.

(** *** What one epoch shows to each observer *)

Lemma grad_events_epoch (fp : pyval) (ils : list (nat * Qc)) :
  List.filter is_grad_event (epoch_events fp ils) =
  TrainerZeroGrad ::
  flat_map (fun l => [TrainerBackward l; TrainerOptimize optimizer; TrainerZeroGrad])
           (map snd ils).
Proof.
  unfold epoch_events. rewrite !List.filter_app, filter_flat_map.
  cbn [List.filter is_grad_event app]. f_equal.
  replace (List.filter is_grad_event (epoch_tail (length ils))) with (@nil event)
    by (destruct (length ils); reflexivity).
  rewrite app_nil_r, flat_map_map.
  apply flat_map_ext. intros il. apply grad_events_iter.
Qed.


Lemma log_records_epoch (fp : pyval) (ils : list (nat * Qc)) :
  log_records (epoch_events fp ils) =
  map (fun il => iter_log (fst il) (snd il)) ils.
Proof.
  unfold epoch_events. rewrite !log_records_app.
  unfold log_records at 2. rewrite flat_map_flat_map.
  replace (log_records (epoch_tail (length ils)))
    with (@nil (gmap string log_value))
    by (destruct (length ils); reflexivity).
  cbn. rewrite app_nil_r, <- flat_map_singleton.
  apply flat_map_ext. intros il. apply log_records_iter.
Qed.

Lemma saved_paths_epoch (fp : pyval) (ils : list (nat * Qc)) :
  saved_paths (epoch_events fp ils) =
  map checkpoint_path (List.filter checkpoint_due (map fst ils))
  ++ saved_paths (epoch_tail (length ils)).
Proof.
  unfold epoch_events. rewrite !saved_paths_app.
  unfold saved_paths at 2. rewrite flat_map_flat_map.
  cbn [saved_paths flat_map app]. f_equal.
  induction ils as [|il ils IH]; [reflexivity|].
  cbn [flat_map map List.filter]. rewrite IH.
  change (flat_map _ (iter_events il)) with (saved_paths (iter_events il)).
  rewrite saved_paths_iter.
  destruct (checkpoint_due (fst il)); reflexivity.
Qed.

Lemma handle_epoch (fp : pyval) (ils : list (nat * Qc)) (m : machine) :
  let m' := fold_left handle (epoch_events fp ils) m in
  grads m' = [] /\
  steps m' = steps m ++ map (fun il => [snd il]) ils /\
  (forall n, length ils = S n ->
     files m' !! checkpoint_path n = Some (length (steps m) + S n)%nat).
Proof.
  unfold epoch_events. cbn zeta.
  rewrite !fold_left_app.
  set (m0 := fold_left handle [Makedirs _; _; _] m).
  assert (Hg0 : grads m0 = []) by reflexivity.
  assert (Hs0 : steps m0 = steps m) by reflexivity.
  destruct (handle_iters ils m0 Hg0) as [H1 H2].
  set (m1 := fold_left handle (flat_map iter_events ils) m0) in *.
  rewrite Hs0 in H2.
  destruct (length ils) as [|n] eqn:Hlen; cbn.
  - repeat split; try assumption. intros n Hn. discriminate.
  - repeat split; try assumption.
    intros n' Hn. injection Hn as <-.
    rewrite lookup_insert_eq, H2, length_app, length_map, Hlen. reflexivity.
Qed.

End EpochProps.

(** ** The whole run *)

Section RunProps.

Variable ext : Externals.
Variable a : Args.
Variable glide_model : Text2ImUNet.
Variable glide_diffusion : SpacedDiffusion.
Variable glide_options : gmap string pyval.
Variable text_ctx fp : pyval.
Variable run_name : string.

Local Abbreviation run_checkpoints_dir := (run_checkpoints_dir ext a).
Local Abbreviation run_dataset := (run_dataset ext a text_ctx).
Local Abbreviation run_loader := (run_loader ext a text_ctx).
Local Abbreviation run_tracker := (run_tracker ext a).
Local Abbreviation run_optimizer := (run_optimizer a glide_model).
Local Abbreviation run_step_ok := (run_step_ok ext glide_model glide_diffusion).
Local Abbreviation run_is_loss := (run_is_loss ext glide_model glide_diffusion).
Local Abbreviation setup_events := (setup_events ext a).
Local Abbreviation start_events := (start_events ext a text_ctx).
Local Abbreviation run_epoch_events := (run_epoch_events ext a glide_model fp).
Local Abbreviation epoch_block := (epoch_block ext a glide_model fp).
Local Abbreviation epoch_pairs_ok :=
  (epoch_pairs_ok ext a glide_model glide_diffusion text_ctx).

Hypothesis loaded :
  load_base_model ext (resume_ckpt a) (use_fp16 a) (dropout a)
    (freeze_transformer a) (freeze_diffusion a) (activation_checkpointing a)
  = (glide_model, glide_diffusion, glide_options).
Hypothesis has_text_ctx : glide_options !! "text_ctx" = Some text_ctx.
Hypothesis has_use_fp16 : glide_options !! "use_fp16" = Some fp.
Hypothesis log_frequency_nonzero : log_frequency a <> 0.

Lemma epochs_spec (es : list nat) :
  forall (last : option nat) (w : world),
    (forall e, In e es -> run_loader e <> [] /\ Forall run_step_ok (run_loader e)) ->
    exists eps w',
      for_loop es
        (fun epoch =>
           emit (Print (MsgStartingEpoch epoch)) >>~
           run_glide_finetune_epoch (generator ext) (sampler_draws ext)
             glide_model glide_diffusion glide_options run_optimizer
             (sample_bs a) (test_prompt a) "./outputs" run_checkpoints_dir
             (log_frequency a) (Some run_name) (run_loader epoch))
        last w = (inr (final_binding es last), w') /\
      trace w' = trace w ++ flat_map epoch_block eps /\
      map fst eps = es /\
      Forall epoch_pairs_ok eps.
Proof.
  induction es as [|e es IH]; intros last w Hes.
  - exists [], w. cbn. rewrite app_nil_r. repeat split. constructor.
  - destruct (Hes e (or_introl eq_refl)) as [Hne Hok].
    cbn [for_loop]. unfold bind at 1. rewrite bind_emit.
    set (w0 := mkWorld _ _).
    destruct (epoch_spec (generator ext) (sampler_draws ext) glide_model
                glide_diffusion glide_options run_optimizer (sample_bs a)
                (test_prompt a) "./outputs" run_checkpoints_dir
                (log_frequency a) (Some run_name)
                log_frequency_nonzero (ex_intro _ _ eq_refl)
                (run_loader e) w0 fp has_use_fp16 Hok)
      as (ils & w1 & Hep & Htr1 & Hfst & Hls).
    rewrite Hep.
    destruct (run_loader e) as [|b bs] eqn:Hl; [congruence|].
    cbn [length epoch_result].
    destruct (IH (Some e) w1) as (eps & w2 & Hloop & Htr2 & Hfst2 & Hall).
    { intros e' He'. apply Hes. right. exact He'. }
    exists ((e, ils) :: eps), w2.
    cbn [final_binding]. split; [exact Hloop|].
    split; [|split].
    + rewrite Htr2, Htr1. subst w0. cbn [trace flat_map epoch_block fst snd].
      unfold run_epoch_events. rewrite <- !app_assoc. reflexivity.
    + cbn. rewrite Hfst2. reflexivity.
    + constructor; [|exact Hall].
      unfold epoch_pairs_ok. cbn [fst snd]. rewrite Hl. split; assumption.
Qed.

Hypothesis dataset_nonempty : (0 < dataset_len run_dataset)%nat.
Hypothesis batch_size_positive : 0 < batch_size a.
Hypothesis learning_rate_ok : (0 <= learning_rate a)%Qc.
Hypothesis some_trainable :
  exists p, In p (parameters glide_model) /\ requires_grad p = true.

(** The driver up to its loop over the epochs. *)
Lemma run_unfold (w : world) :
  run_glide_finetune ext a w =
  bind
    (for_loop (seq 0 (Z.to_nat (num_epochs a)))
       (fun epoch =>
          emit (Print (MsgStartingEpoch epoch)) >>~
          run_glide_finetune_epoch (generator ext) (sampler_draws ext)
            glide_model glide_diffusion glide_options run_optimizer
            (sample_bs a) (test_prompt a) "./outputs" run_checkpoints_dir
            (log_frequency a) run_tracker (run_loader epoch))
       None)
    (fun _ => ret tt)
    (mkWorld (trace w ++ start_events) (rng w)).
Proof.
  unfold run_glide_finetune. cbn zeta. rewrite !bind_emit, loaded.
  unfold dict_get. rewrite has_text_ctx, bind_ret, bind_emit.
  fold run_dataset.
  unfold py_assert, DataLoader.
  destruct (Nat.ltb_spec 0 (dataset_len run_dataset)) as [_|?]; [|lia].
  destruct (Z.ltb_spec 0 (batch_size a)) as [_|?]; [|lia].
  rewrite !bind_ret, !bind_emit, bind_ret.
  rewrite (bind_ok _ _ _ _ _
             (make_optimizer_ok glide_model (use_sgd a) (learning_rate a) _
                learning_rate_ok some_trainable)).
  rewrite !bind_emit. cbn [trace rng].
  unfold start_events, setup_events, run_checkpoints_dir.
  rewrite <- !app_assoc. reflexivity.
Qed.

Hypothesis tracker_given : run_tracker = Some run_name.

Lemma run_spec (w : world) :
  (forall e, (e < Z.to_nat (num_epochs a))%nat ->
     run_loader e <> [] /\ Forall run_step_ok (run_loader e)) ->
  exists eps w',
    run_glide_finetune ext a w = (inr tt, w') /\
    trace w' = trace w ++ start_events ++ flat_map epoch_block eps /\
    map fst eps = seq 0 (Z.to_nat (num_epochs a)) /\
    Forall epoch_pairs_ok eps.
Proof.
  intros Hes. rewrite run_unfold, tracker_given.
  set (w0 := mkWorld _ _).
  destruct (epochs_spec (seq 0 (Z.to_nat (num_epochs a))) None w0)
    as (eps & w1 & Hloop & Htr & Hfst & Hall).
  { intros e He. apply Hes. apply in_seq in He. lia. }
  exists eps, w1.
  rewrite (bind_ok _ _ _ _ _ Hloop). split; [reflexivity|].
  split; [|split; assumption].
  rewrite Htr. subst w0. cbn [trace]. rewrite <- !app_assoc. reflexivity.
Qed.

End RunProps.

(** ** Every computation of the script is tame *)

Lemma tame_ret {A : Type} (x : A) : tame (ret x).
Proof.
  intros w. split; [exists []; cbn; rewrite app_nil_r; reflexivity|].
  intros e He. discriminate.
Qed.

Lemma tame_raise {A : Type} (e : exn) : not_assertion e -> tame (@raise A e).
Proof.
  intros Hne w. split; [exists []; cbn; rewrite app_nil_r; reflexivity|].
  intros e' He'. cbn in He'. injection He' as <-. exact Hne.
Qed.

Lemma tame_emit (e : event) : tame (emit e).
Proof.
  intros w. split; [exists [e]; reflexivity|]. intros e' He'. discriminate.
Qed.

Lemma tame_lift {A : Type} (r : exn + A) :
  (forall e, r = inl e -> not_assertion e) -> tame (lift r).
Proof.
  intros Hr w. split; [exists []; cbn; rewrite app_nil_r; reflexivity|].
  intros e He. apply Hr. exact He.
Qed.

Lemma tame_bind {A B : Type} (m : M A) (k : A -> M B) :
  tame m -> (forall x, tame (k x)) -> tame (bind m k).
Proof.
  intros Hm Hk w. unfold bind.
  destruct (Hm w) as [[t Ht] He].
  destruct (m w) as [[e|x] w1]; cbn in *.
  - split; [exists t; exact Ht|]. intros e' He'.
    injection He' as <-. apply He. reflexivity.
  - destruct (Hk x w1) as [[t' Ht'] He'].
    split; [|exact He'].
    exists (t ++ t'). rewrite Ht', Ht, app_assoc. reflexivity.
Qed.

Lemma tame_for_loop {A : Type} (body : A -> M unit) (xs : list A) :
  (forall x, tame (body x)) -> forall last, tame (for_loop xs body last).
Proof.
  intros Hb. induction xs as [|x xs IH]; intros last; cbn [for_loop].
  - apply tame_ret.
  - apply tame_bind; [apply Hb | intros _; apply IH].
Qed.

Lemma tame_th_randint (g : Generator) (low high : Z) (size : nat) :
  tame (th_randint g low high size).
Proof.
  intros w. unfold th_randint. destruct (high <=? low); cbn.
  - split; [exists []; rewrite app_nil_r; reflexivity|].
    intros e He. injection He as <-. intros msg. discriminate.
  - split; [exists []; rewrite app_nil_r; reflexivity|].
    intros e He. discriminate.
Qed.

Lemma tame_th_randn_like (g : Generator) (x : Tensor) : tame (th_randn_like g x).
Proof.
  intros w. unfold th_randn_like. cbn.
  split; [exists []; rewrite app_nil_r; reflexivity|].
  intros e He. discriminate.
Qed.

Lemma th_split_error (t : Tensor) (n : nat) (e : exn) :
  th_split t n = inl e -> not_assertion e.
Proof.
  unfold th_split. destruct (n =? 0)%nat; [destruct (dim1 t =? 0)%nat|];
    intros H; try discriminate.
  injection H as <-. intros msg. discriminate.
Qed.

Lemma unpack2_error {A : Type} (xs : list A) (e : exn) :
  unpack2 xs = inl e -> not_assertion e.
Proof.
  destruct xs as [|x [|y [|z xs]]]; cbn; intros H; try discriminate;
    injection H as <-; intros msg; discriminate.
Qed.

Lemma squared_error_loss_error (x y : Tensor) (e : exn) :
  squared_error_loss x y = inl e -> not_assertion e.
Proof.
  unfold squared_error_loss, tensor_sub.
  destruct (broadcast_dim _ _); [|intros H; injection H as <-; intros msg; discriminate].
  destruct (broadcast_dim _ _); [|intros H; injection H as <-; intros msg; discriminate].
  destruct (broadcast_dim _ _); [|intros H; injection H as <-; intros msg; discriminate].
  destruct (broadcast_dim _ _); [|intros H; injection H as <-; intros msg; discriminate].
  intros H. discriminate.
Qed.

Lemma tame_train_step (g : Generator) (glide_model : Text2ImUNet)
    (glide_diffusion : SpacedDiffusion) (batch : Batch) :
  tame (train_step g glide_model glide_diffusion batch).
Proof.
  destruct batch as [[tokens masks] x_start]. unfold train_step.
  apply tame_bind; [apply tame_th_randint|]. intros timesteps.
  apply tame_bind; [apply tame_th_randn_like|]. intros noise.
  apply tame_bind; [apply tame_lift, th_split_error|]. intros chunks.
  apply tame_bind; [apply tame_lift, unpack2_error|]. intros halves.
  apply tame_lift, squared_error_loss_error.
Qed.

Lemma tame_save_model (checkpoints_dir : string) (train_idx : nat) :
  tame (save_model checkpoints_dir train_idx).
Proof.
  unfold save_model. apply tame_bind; [apply tame_emit|].
  intros _. apply tame_emit.
Qed.

Lemma tame_epoch_body g sample_draws glide_model glide_diffusion optimizer
    sample_bs prompt outputs_dir checkpoints_dir log_frequency wandb_run it :
  tame (epoch_body g sample_draws glide_model glide_diffusion optimizer
          sample_bs prompt outputs_dir checkpoints_dir log_frequency
          wandb_run it).
Proof.
  destruct it as [train_idx batch]. unfold epoch_body.
  apply tame_bind; [apply tame_emit|]. intros _.
  apply tame_bind; [apply tame_train_step|]. intros current_loss.
  repeat (apply tame_bind; [apply tame_emit|]; intros _).
  apply tame_bind.
  { destruct (negb _); [|apply tame_ret].
    apply tame_bind; [apply tame_emit|]. intros _. apply tame_ret. }
  intros log. apply tame_bind.
  { destruct (0 <? Z.of_nat train_idx); [|apply tame_ret].
    apply tame_bind.
    - unfold py_mod. destruct (log_frequency =? 0); [|apply tame_ret].
      apply tame_raise. intros msg. discriminate.
    - intros r. destruct (r =? 0); [|apply tame_ret].
      apply tame_bind; [apply tame_emit|]. intros _.
      apply tame_bind.
      { intros w. split; [eexists; reflexivity|]. intros e He. discriminate. }
      intros _.
      repeat (apply tame_bind; [apply tame_emit|]; intros _).
      apply tame_ret. }
  intros log'. apply tame_bind.
  { destruct (_ && _); [|apply tame_ret].
    apply tame_bind; [apply tame_save_model|]. intros _. apply tame_emit. }
  intros _. unfold wandb_log. destruct wandb_run; [apply tame_emit|].
  apply tame_raise. intros msg. discriminate.
Qed.

Lemma tame_epoch g sample_draws glide_model glide_diffusion glide_options
    optimizer sample_bs prompt outputs_dir checkpoints_dir log_frequency
    wandb_run dataloader :
  tame (run_glide_finetune_epoch g sample_draws glide_model glide_diffusion
          glide_options optimizer sample_bs prompt outputs_dir
          checkpoints_dir log_frequency wandb_run dataloader).
Proof.
  unfold run_glide_finetune_epoch.
  apply tame_bind; [apply tame_emit|]. intros _.
  apply tame_bind.
  { unfold dict_get. destruct (_ !! _); [apply tame_ret|].
    apply tame_raise. intros msg. discriminate. }
  intros fp.
  repeat (apply tame_bind; [apply tame_emit|]; intros _).
  apply tame_bind; [apply tame_for_loop; intros it; apply tame_epoch_body|].
  intros last. apply tame_bind; [apply tame_emit|]. intros _.
  destruct last as [[train_idx b]|]; [apply tame_save_model|].
  apply tame_raise. intros msg. discriminate.
Qed.

Lemma shapes_fit_step_ok (g : Generator) (glide_model : Text2ImUNet)
    (glide_diffusion : SpacedDiffusion) (batch : Batch) :
  (2 <= length (betas glide_diffusion))%nat ->
  (forall pos, shapes_fit g glide_model glide_diffusion batch pos) ->
  step_ok g glide_model glide_diffusion batch.
Proof.
  intros HT Hfit w.
  exists (spec_loss (step_noise g (snd batch) (rng w))
                    (step_output g glide_model glide_diffusion batch (rng w))),
         (step_world batch w).
  split; [|reflexivity].
  apply train_step_returns; [exact HT | apply Hfit].
Qed.

Lemma toy_shapes_fit (pos : nat) :
  shapes_fit toy_generator (toy_model 4) toy_diffusion toy_batch pos.
Proof. unfold shapes_fit. cbn. repeat split; lia. Qed.

Lemma toy_step_ok : step_ok toy_generator (toy_model 4) toy_diffusion toy_batch.
Proof.
  apply shapes_fit_step_ok; [cbn; lia | exact toy_shapes_fit].
Qed.

Lemma toy_loader_ok (n : nat) :
  Forall (step_ok toy_generator (toy_model 4) toy_diffusion) (repeat toy_batch n).
Proof.
  induction n as [|n IH]; cbn; constructor; [exact toy_step_ok | exact IH].
Qed.

Lemma tame_make_optimizer (glide_model : Text2ImUNet) (use_sgd : bool)
    (learning_rate : Qc) :
  tame (make_optimizer glide_model use_sgd learning_rate).
Proof.
  unfold make_optimizer, th_optim_SGD, th_optim_AdamW.
  destruct use_sgd, (Qc_negative learning_rate), (Qc_negative (Q2Qc (9 # 10))),
    (Qc_negative (Q2Qc 0)),
    (List.filter (fun x => requires_grad x) (parameters glide_model));
    first [apply tame_ret | apply tame_raise; intros ?; discriminate].
Qed.

Ltac tame_step :=
  first
    [ apply tame_emit
    | apply tame_ret
    | apply tame_make_optimizer
    | apply tame_epoch
    | apply tame_save_model
    | apply tame_raise; intros ?; discriminate
    | apply tame_for_loop; intros ?
    | apply tame_bind; [|intros ?] ].

Lemma Forall2_map_snd {A B C : Type} (P : A -> C -> Prop) (xs : list A)
    (ys : list (B * C)) :
  Forall2 (fun x y => P x (snd y)) xs ys -> Forall2 P xs (map snd ys).
Proof.
  induction 1; cbn; constructor; assumption.
Qed.

Lemma iter_log_loss (prompt outputs_dir : string) (log_frequency : Z)
    (i : nat) (l : Qc) :
  iter_log prompt outputs_dir log_frequency i l !! "loss" =
  if Z.of_nat i mod 10 =? 0 then None else Some (VFloat l).
Proof.
  unfold iter_log, loss_due.
  destruct (sample_due log_frequency i), (Z.of_nat i mod 10 =? 0); cbn [negb];
    repeat (rewrite lookup_insert_ne by discriminate);
    rewrite ?lookup_insert_eq, ?lookup_empty; reflexivity.
Qed.

(** The record at position [i] of an epoch is the record of iteration [i]. *)
Lemma nth_error_indexed {B : Type} (ils : list (nat * B)) :
  forall start i il,
    map fst ils = seq start (length ils) ->
    nth_error ils i = Some il -> fst il = (start + i)%nat.
Proof.
  induction ils as [|x ils IH]; intros start i il Hfst Hi.
  - destruct i; discriminate.
  - cbn [map length seq] in Hfst. injection Hfst as Hx Hfst.
    destruct i as [|i]; cbn [nth_error] in Hi.
    + injection Hi as <-. lia.
    + rewrite (IH (S start) i il Hfst Hi). lia.
Qed.

Lemma nth_error_iter_logs (prompt outputs_dir : string) (log_frequency : Z)
    (ils : list (nat * Qc)) (i : nat) (rec : gmap string log_value) :
  map fst ils = seq 0 (length ils) ->
  nth_error (map (fun il => iter_log prompt outputs_dir log_frequency
                              (fst il) (snd il)) ils) i = Some rec ->
  exists l,
    nth_error (map snd ils) i = Some l /\
    rec = iter_log prompt outputs_dir log_frequency i l.
Proof.
  intros Hfst Hi. rewrite nth_error_map in Hi.
  destruct (nth_error ils i) as [il|] eqn:Hil; [|discriminate].
  cbn [option_map] in Hi. injection Hi as <-.
  exists (snd il). rewrite nth_error_map, Hil. split; [reflexivity|].
  rewrite (nth_error_indexed ils 0 i il Hfst Hil). reflexivity.
Qed.

(** ** Observations on a whole run *)

Lemma optimizers_used_iter optimizer sample_bs prompt outputs_dir
    checkpoints_dir log_frequency (il : nat * Qc) :
  optimizers_used
    (iter_events optimizer sample_bs prompt outputs_dir checkpoints_dir
       log_frequency il) = [optimizer].
Proof.
  destruct il as [i l]. unfold iter_events.
  destruct (loss_due i), (sample_due log_frequency i), (checkpoint_due i);
    reflexivity.
Qed.

Lemma optimizers_used_epoch optimizer sample_bs prompt outputs_dir
    checkpoints_dir log_frequency fp (ils : list (nat * Qc)) :
  optimizers_used
    (epoch_events optimizer sample_bs prompt outputs_dir checkpoints_dir
       log_frequency fp ils) = repeat optimizer (length ils).
Proof.
  unfold epoch_events, optimizers_used. rewrite !flat_map_app, flat_map_flat_map.
  replace (flat_map _ (epoch_tail checkpoints_dir (length ils)))
    with (@nil Optimizer) by (destruct (length ils); reflexivity).
  cbn. rewrite app_nil_r.
  induction ils as [|il ils IH]; [reflexivity|].
  cbn [flat_map length repeat]. rewrite IH.
  change (flat_map _ (iter_events optimizer sample_bs prompt outputs_dir
                        checkpoints_dir log_frequency il))
    with (optimizers_used (iter_events optimizer sample_bs prompt outputs_dir
                             checkpoints_dir log_frequency il)).
  rewrite optimizers_used_iter. reflexivity.
Qed.

Lemma saved_paths_epoch_tail (checkpoints_dir : string) (n : nat) :
  saved_paths (epoch_tail checkpoints_dir (S n)) = [checkpoint_path checkpoints_dir n].
Proof. reflexivity. Qed.

Section RunObservations.

Variable ext : Externals.
Variable a : Args.
Variable glide_model : Text2ImUNet.
Variable glide_diffusion : SpacedDiffusion.
Variable text_ctx fp : pyval.

Local Abbreviation pairs_ok :=
  (epoch_pairs_ok ext a glide_model glide_diffusion text_ctx).
Local Abbreviation block := (epoch_block ext a glide_model fp).
Local Abbreviation loader := (run_loader ext a text_ctx).
Local Abbreviation ckdir := (run_checkpoints_dir ext a).

Lemma pairs_ok_length (p : nat * list (nat * Qc)) :
  pairs_ok p -> length (snd p) = length (loader (fst p)).
Proof.
  intros [Hfst _]. rewrite <- (length_map fst), Hfst, length_seq. reflexivity.
Qed.

(** An observation that reads an epoch through its indices only is the same
    for every choice of losses. *)
Lemma flat_map_epochs {B : Type} (F : nat -> list nat -> list B)
    (eps : list (nat * list (nat * Qc))) :
  Forall pairs_ok eps ->
  flat_map (fun p => F (fst p) (map fst (snd p))) eps =
  flat_map (fun e => F e (seq 0 (length (loader e)))) (map fst eps).
Proof.
  induction 1 as [|p eps [Hp _] _ IH]; [reflexivity|].
  cbn [flat_map map]. rewrite IH, Hp. reflexivity.
Qed.


Lemma saved_paths_run (eps : list (nat * list (nat * Qc))) :
  Forall pairs_ok eps ->
  saved_paths (start_events ext a text_ctx ++ flat_map block eps) =
  flat_map (fun e =>
              map (checkpoint_path ckdir)
                  (List.filter checkpoint_due (seq 0 (length (loader e))))
              ++ saved_paths (epoch_tail ckdir (length (loader e))))
           (map fst eps).
Proof.
  intros Hall. rewrite saved_paths_app.
  change (saved_paths (start_events ext a text_ctx)) with (@nil string).
  cbn [app]. unfold saved_paths at 1. rewrite flat_map_flat_map.
  transitivity
    (flat_map
       (fun p : nat * list (nat * Qc) =>
          (fun (_ : nat) idxs =>
             map (checkpoint_path ckdir) (List.filter checkpoint_due idxs)
             ++ saved_paths (epoch_tail ckdir (length idxs)))
            (fst p) (map fst (snd p))) eps).
  - apply flat_map_ext. intros [e ils]. unfold epoch_block.
    cbn [flat_map fst snd app]. rewrite length_map. apply saved_paths_epoch.
  - etransitivity;
      [exact (flat_map_epochs
                (fun (_ : nat) idxs =>
                   map (checkpoint_path ckdir) (List.filter checkpoint_due idxs)
                   ++ saved_paths (epoch_tail ckdir (length idxs))) eps Hall)|].
    apply flat_map_ext. intros e. rewrite length_seq. reflexivity.
Qed.

Lemma list_sum_cons (x : nat) (l : list nat) :
  list_sum (x :: l) = (x + list_sum l)%nat.
Proof. reflexivity. Qed.

Lemma list_sum_epochs (eps : list (nat * list (nat * Qc))) :
  Forall pairs_ok eps ->
  list_sum (map (fun p => length (snd p)) eps) =
  list_sum (map (fun e => length (loader e)) (map fst eps)).
Proof.
  induction 1 as [|p eps Hp _ IH]; [reflexivity|].
  cbn [map]. rewrite !list_sum_cons, IH, (pairs_ok_length p Hp).
  reflexivity.
Qed.

(** Every optimizer call of a run uses the optimizer of the driver, and
    there is one call for each iteration. *)
Lemma optimizers_used_run (eps : list (nat * list (nat * Qc))) :
  optimizers_used (start_events ext a text_ctx ++ flat_map block eps) =
  repeat (run_optimizer a glide_model)
         (list_sum (map (fun p => length (snd p)) eps)).
Proof.
  unfold optimizers_used. rewrite flat_map_app.
  change (flat_map _ (start_events ext a text_ctx)) with (@nil Optimizer).
  cbn [app]. induction eps as [|[e ils] eps IH]; [reflexivity|].
  cbn [flat_map map snd]. rewrite flat_map_app, IH, list_sum_cons, repeat_app.
  f_equal. unfold epoch_block. cbn [flat_map fst snd app].
  change (flat_map _ (run_epoch_events ext a glide_model fp ils))
    with (optimizers_used (run_epoch_events ext a glide_model fp ils)).
  unfold run_epoch_events. apply optimizers_used_epoch.
Qed.

(** The disk after a run of epochs that all have [S n] iterations: the file
    of the last index holds the weights after all the updates of the run. *)
Lemma handle_epochs (n : nat) (eps : list (nat * list (nat * Qc))) :
  forall m,
    Forall (fun p => length (snd p) = S n) eps ->
    eps <> [] ->
    let m' := fold_left handle (flat_map block eps) m in
    length (steps m') = (length (steps m) + length eps * S n)%nat /\
    files m' !! checkpoint_path ckdir n =
      Some (length (steps m) + length eps * S n)%nat.
Proof.
  induction eps as [|[e ils] eps IH]; intros m Hall Hne; [congruence|].
  apply Forall_cons_1 in Hall as [Hlen Hall]. cbn [snd] in Hlen.
  cbn zeta. cbn [flat_map]. rewrite fold_left_app.
  change (fold_left handle (block (e, ils)) m)
    with (fold_left handle
            (epoch_events (run_optimizer a glide_model) (sample_bs a)
               (test_prompt a) "./outputs" ckdir (log_frequency a) fp ils) m).
  destruct (handle_epoch (run_optimizer a glide_model) (sample_bs a)
              (test_prompt a) "./outputs" ckdir (log_frequency a) fp ils m)
    as (_ & Hs & Hf).
  set (m1 := fold_left handle (epoch_events _ _ _ _ _ _ _ ils) m) in *.
  assert (Hs1 : length (steps m1) = (length (steps m) + S n)%nat).
  { rewrite Hs, length_app, length_map, Hlen. reflexivity. }
  destruct eps as [|p eps].
  - cbn [flat_map fold_left length]. split; [lia|].
    rewrite (Hf n Hlen). f_equal. lia.
  - destruct (IH m1 Hall) as [H1 H2]; [discriminate|].
    cbn zeta in H1, H2. rewrite H1, H2, Hs1. cbn [length]. split; [lia|].
    f_equal. lia.
Qed.

End RunObservations.

(** ** Names of checkpoint files *)

Lemma string_length_append (s t : string) :
  String.length (s +:+ t) = (String.length s + String.length t)%nat.
Proof.
  induction s as [|c s IH]; [reflexivity|].
  change (String c s +:+ t) with (String c (s +:+ t)).
  cbn [String.length]. rewrite IH. reflexivity.
Qed.

Lemma append_inj_r (t : string) :
  forall s1 s2, s1 +:+ t = s2 +:+ t -> s1 = s2.
Proof.
  induction s1 as [|c1 s1 IH]; intros [|c2 s2] H.
  - reflexivity.
  - apply (f_equal String.length) in H.
    change (String c2 s2 +:+ t) with (String c2 (s2 +:+ t)) in H.
    change ("" +:+ t) with t in H.
    cbn [String.length] in H. rewrite string_length_append in H. lia.
  - apply (f_equal String.length) in H.
    change (String c1 s1 +:+ t) with (String c1 (s1 +:+ t)) in H.
    change ("" +:+ t) with t in H.
    cbn [String.length] in H. rewrite string_length_append in H. lia.
  - change (String c1 s1 +:+ t) with (String c1 (s1 +:+ t)) in H.
    change (String c2 s2 +:+ t) with (String c2 (s2 +:+ t)) in H.
    injection H as -> H. f_equal. apply IH. exact H.
Qed.

Lemma checkpoint_name_inj (j k : nat) :
  checkpoint_name j = checkpoint_name k -> j = k.
Proof.
  unfold checkpoint_name. intros H.
  apply (inj (String.app "glide-ft-")) in H.
  apply append_inj_r in H.
  apply (inj pretty) in H. exact H.
Qed.

Lemma checkpoint_path_inj (dir : string) (j k : nat) :
  checkpoint_path dir j = checkpoint_path dir k -> j = k.
Proof.
  unfold checkpoint_path, os_path_join.
  change (startswith_sep (checkpoint_name j)) with false.
  change (startswith_sep (checkpoint_name k)) with false.
  cbn iota. intros H. apply checkpoint_name_inj.
  destruct (String.eqb dir "" || endswith_sep dir).
  - apply (inj (String.app dir)) in H. exact H.
  - apply (inj (String.app dir)) in H.
    apply (inj (String.app "/")) in H. exact H.
Qed.




Lemma flat_map_ext_seq {B : Type} (f h : nat -> list B) (n : nat) :
  (forall e, (e < n)%nat -> f e = h e) ->
  flat_map f (seq 0 n) = flat_map h (seq 0 n).
Proof.
  intros H. rewrite !flat_map_concat_map. f_equal. apply map_seq_ext. exact H.
Qed.

Lemma toy_run_loaders (n : nat) (epochs : Z) (e : nat) :
  (e < Z.to_nat (num_epochs (toy_args epochs)))%nat ->
  run_loader (toy_ext 4 (S n)) (toy_args epochs) (PInt 128) e <> [] /\
  Forall (run_step_ok (toy_ext 4 (S n)) (toy_model 4) toy_diffusion)
         (run_loader (toy_ext 4 (S n)) (toy_args epochs) (PInt 128) e).
Proof.
  intros _. split; [discriminate|]. exact (toy_loader_ok (S n)).
Qed.

(** The checkpoint writes of a run, epoch by epoch. *)
Lemma run_saved_paths (ext : Externals) (a : Args)
    (glide_model : Text2ImUNet) (glide_diffusion : SpacedDiffusion)
    (glide_options : gmap string pyval) (text_ctx fp : pyval)
    (run_name : string) (w : world) :
  load_base_model ext (resume_ckpt a) (use_fp16 a) (dropout a)
    (freeze_transformer a) (freeze_diffusion a) (activation_checkpointing a)
  = (glide_model, glide_diffusion, glide_options) ->
  glide_options !! "text_ctx" = Some text_ctx ->
  glide_options !! "use_fp16" = Some fp ->
  log_frequency a <> 0 ->
  (0 < dataset_len (run_dataset ext a text_ctx))%nat ->
  0 < batch_size a ->
  (0 <= learning_rate a)%Qc ->
  (exists p, In p (parameters glide_model) /\ requires_grad p = true) ->
  run_tracker ext a = Some run_name ->
  (forall e, (e < Z.to_nat (num_epochs a))%nat ->
     run_loader ext a text_ctx e <> [] /\
     Forall (run_step_ok ext glide_model glide_diffusion)
            (run_loader ext a text_ctx e)) ->
  exists w',
    run_glide_finetune ext a w = (inr tt, w') /\
    saved_paths (trace w') =
      saved_paths (trace w)
      ++ flat_map
           (fun e =>
              map (checkpoint_path (run_checkpoints_dir ext a))
                  (List.filter checkpoint_due
                     (seq 0 (length (run_loader ext a text_ctx e))))
              ++ [checkpoint_path (run_checkpoints_dir ext a)
                    (length (run_loader ext a text_ctx e) - 1)])
           (seq 0 (Z.to_nat (num_epochs a))).
Proof.
  intros Hload Hctx Hfp Hlf Hds Hbs Hlr Htrain Hrun_name Hes.
  destruct (run_spec ext a glide_model glide_diffusion glide_options text_ctx fp
              run_name Hload Hctx Hfp Hlf Hds Hbs Hlr Htrain Hrun_name w Hes)
    as (eps & w' & Hrun & Htr & Hfst & Hall).
  exists w'. split; [exact Hrun|].
  rewrite Htr, saved_paths_app. f_equal.
  rewrite (saved_paths_run ext a glide_model glide_diffusion text_ctx fp eps Hall).
  rewrite Hfst. apply flat_map_ext_seq. intros e He.
  destruct (Hes e He) as [Hne _]. f_equal.
  destruct (run_loader ext a text_ctx e) as [|b bs]; [congruence|].
  cbn [length]. rewrite saved_paths_epoch_tail, Nat.sub_succ, Nat.sub_0_r.
  reflexivity.
Qed.

(** * The claims *)

(** C1.  On a schedule of at least two steps [train_step] draws one timestep
    per example of the batch: the vector has the length of the batch, every
    entry is at least 0 and strictly below T-1 (so none equals T-1), and
    every value of that interval is drawn by some generator. *)
Theorem C1_timesteps_in_range (g : Generator) (d : SpacedDiffusion)
    (x_start : Tensor) (w : world) :
  (2 <= length (betas d))%nat ->
  let T := Z.of_nat (length (betas d)) in
  exists ts,
    draw_timesteps g d x_start w =
      (inr ts, mkWorld (trace w) (rng w + dim0 x_start)%nat) /\
    length ts = dim0 x_start /\
    Forall (fun t => 0 <= t < T - 1) ts /\
    ~ In (T - 1) ts /\
    (forall v, 0 <= v < T - 1 ->
       exists g',
         draw_timesteps g' d x_start w =
           (inr (repeat v (dim0 x_start)),
            mkWorld (trace w) (rng w + dim0 x_start)%nat)).
Proof.
  intros HT T. subst T.
  exists (randint_values g 0 (Z.of_nat (length (betas d)) - 1) (dim0 x_start) (rng w)).
  assert (Hr : Forall (fun t => 0 <= t < Z.of_nat (length (betas d)) - 1)
                 (randint_values g 0 (Z.of_nat (length (betas d)) - 1)
                    (dim0 x_start) (rng w)))
    by (apply randint_values_range; lia).
  split; [apply draw_timesteps_ok; exact HT|].
  split; [apply length_randint_values|].
  split; [exact Hr|].
  split.
  - intros Hin. rewrite List.Forall_forall in Hr. specialize (Hr _ Hin). lia.
  - intros v Hv. exists (mkGenerator (fun _ => v) (randn_raw g)).
    rewrite draw_timesteps_ok by exact HT. f_equal. f_equal.
    unfold randint_values. cbn [randint_raw].
    rewrite Z.add_0_l, Z.sub_0_r, Z.mod_small by lia.
    generalize (dim0 x_start). intros n. generalize 0%nat.
    induction n as [|n IH]; intros s; cbn; [reflexivity|].
    rewrite IH. reflexivity.
Qed.

Lemma C1_timesteps_witness :
  exists ts,
    draw_timesteps toy_generator toy_diffusion (toy_tensor 4 2) initial_world =
      (inr ts, mkWorld [] 4) /\
    length ts = 4%nat /\
    Forall (fun t => 0 <= t < 2) ts /\
    ~ In 2 ts /\
    (forall v, 0 <= v < 2 ->
       exists g',
         draw_timesteps g' toy_diffusion (toy_tensor 4 2) initial_world =
           (inr (repeat v 4), mkWorld [] 4)).
Proof.
  apply (C1_timesteps_in_range toy_generator toy_diffusion (toy_tensor 4 2)
           initial_world).
  cbn. lia.
Defined.

(** C2.  When the shapes fit, the loss [train_step] returns is the mean over
    the batch of the per-example mean over channel, height and width of the
    squared difference between the injected noise and the first channels of
    the model output; taking the difference the other way round gives the
    same scalar, in the words of the specification and in the code. *)
Theorem C2_loss_is_mean_squared_error (g : Generator) (glide_model : Text2ImUNet)
    (glide_diffusion : SpacedDiffusion) (batch : Batch) (w : world) :
  (2 <= length (betas glide_diffusion))%nat ->
  shapes_fit g glide_model glide_diffusion batch (rng w) ->
  let noise := step_noise g (snd batch) (rng w) in
  let model_output := step_output g glide_model glide_diffusion batch (rng w) in
  train_step g glide_model glide_diffusion batch w =
    (inr (spec_loss noise model_output), step_world batch w) /\
  spec_loss noise model_output = spec_loss_swapped noise model_output /\
  (forall epsilon,
     squared_error_loss noise epsilon = squared_error_loss epsilon noise).
Proof.
  intros HT Hfit noise model_output. split; [|split].
  - apply train_step_returns; assumption.
  - apply spec_loss_swap.
  - intros epsilon. apply squared_error_loss_comm.
Qed.

Lemma C2_loss_witness :
  let noise := step_noise toy_generator (snd toy_batch) 0 in
  let model_output :=
    step_output toy_generator (toy_model 4) toy_diffusion toy_batch 0 in
  train_step toy_generator (toy_model 4) toy_diffusion toy_batch initial_world =
    (inr (spec_loss noise model_output), step_world toy_batch initial_world) /\
  spec_loss noise model_output = spec_loss_swapped noise model_output /\
  (forall epsilon,
     squared_error_loss noise epsilon = squared_error_loss epsilon noise).
Proof.
  apply (C2_loss_is_mean_squared_error toy_generator (toy_model 4)
           toy_diffusion toy_batch initial_world).
  - cbn. lia.
  - unfold shapes_fit. cbn. repeat split; lia.
Defined.

(** C3.  One call of the epoch function on a loader whose batches all go
    through the training step: the gradient-related calls are one zeroing,
    then for each batch in turn one backward pass of its loss, one optimizer
    call and one zeroing; every optimizer call applies the gradient of the
    loss of its own batch and of nothing else, and the buffers are empty at
    the end. *)
Theorem C3_one_optimizer_step_per_batch (g : Generator) (sample_draws : nat)
    (glide_model : Text2ImUNet) (glide_diffusion : SpacedDiffusion)
    (glide_options : gmap string pyval) (optimizer : Optimizer) (sample_bs : Z)
    (prompt outputs_dir checkpoints_dir : string) (log_frequency : Z)
    (run_name : string) (dataloader : list Batch) (fp : pyval) (w : world) :
  log_frequency <> 0 ->
  glide_options !! "use_fp16" = Some fp ->
  Forall (step_ok g glide_model glide_diffusion) dataloader ->
  let w' :=
    snd (run_glide_finetune_epoch g sample_draws glide_model glide_diffusion
           glide_options optimizer sample_bs prompt outputs_dir checkpoints_dir
           log_frequency (Some run_name) dataloader w) in
  exists losses,
    Forall2 (is_loss g glide_model glide_diffusion) dataloader losses /\
    List.filter is_grad_event (trace w') =
      List.filter is_grad_event (trace w)
      ++ TrainerZeroGrad
         :: flat_map (fun l => [TrainerBackward l; TrainerOptimize optimizer;
                                TrainerZeroGrad]) losses /\
    steps (interp (trace w')) =
      steps (interp (trace w)) ++ map (fun l => [l]) losses /\
    grads (interp (trace w')) = [].
Proof.
  intros Hlf Hfp Hok w'.
  destruct (epoch_spec g sample_draws glide_model glide_diffusion glide_options
              optimizer sample_bs prompt outputs_dir checkpoints_dir
              log_frequency (Some run_name) Hlf (ex_intro _ _ eq_refl)
              dataloader w fp Hfp Hok)
    as (ils & w1 & Hep & Htr & Hfst & Hls).
  subst w'. rewrite Hep. cbn [snd]. rewrite Htr.
  exists (map snd ils).
  split; [apply Forall2_map_snd; exact Hls|].
  split; [rewrite List.filter_app, grad_events_epoch; reflexivity|].
  rewrite interp_app.
  destruct (handle_epoch optimizer sample_bs prompt outputs_dir checkpoints_dir
              log_frequency fp ils (interp (trace w))) as (Hg & Hs & _).
  split; [|exact Hg].
  rewrite Hs, map_map. reflexivity.
Qed.

Lemma C3_one_step_witness :
  let w' :=
    snd (run_glide_finetune_epoch toy_generator 7 (toy_model 4) toy_diffusion
           toy_options (optimizer_object (toy_model 4) false (Q2Qc (1 # 100000)))
           1 "a prompt" "./outputs" "./ckpt/" 100 (Some "glide_finetune")
           [toy_batch; toy_batch; toy_batch] initial_world) in
  exists losses,
    Forall2 (is_loss toy_generator (toy_model 4) toy_diffusion)
            [toy_batch; toy_batch; toy_batch] losses /\
    List.filter is_grad_event (trace w') =
      List.filter is_grad_event (trace initial_world)
      ++ TrainerZeroGrad
         :: flat_map (fun l =>
                        [TrainerBackward l;
                         TrainerOptimize
                           (optimizer_object (toy_model 4) false (Q2Qc (1 # 100000)));
                         TrainerZeroGrad]) losses /\
    steps (interp (trace w')) =
      steps (interp (trace initial_world)) ++ map (fun l => [l]) losses /\
    grads (interp (trace w')) = [].
Proof.
  apply (C3_one_optimizer_step_per_batch toy_generator 7 (toy_model 4)
           toy_diffusion toy_options _ 1 "a prompt" "./outputs" "./ckpt/" 100
           "glide_finetune" [toy_batch; toy_batch; toy_batch] (PBool false)
           initial_world).
  - lia.
  - reflexivity.
  - exact (toy_loader_ok 3).
Defined.




(** C5, as the code has it.  Given a tracker run, a log frequency that is
    not zero and batches that all go through the training step: the
    tracker's log call is made exactly once in every iteration, in order,
    and never raises, whatever the record holds, the empty record included.
    The loss is not in every record: a test on the iteration index modulo 10
    decides whether the record carries it, and of the records of iterations
    0 and 1 exactly one does; a record that carries a loss carries the loss
    of its own iteration. *)
Theorem C5_one_log_call_per_iteration (g : Generator) (sample_draws : nat)
    (glide_model : Text2ImUNet) (glide_diffusion : SpacedDiffusion)
    (glide_options : gmap string pyval) (optimizer : Optimizer) (sample_bs : Z)
    (prompt outputs_dir checkpoints_dir : string) (log_frequency : Z)
    (run_name : string) (dataloader : list Batch) (fp : pyval) (w : world) :
  log_frequency <> 0 ->
  glide_options !! "use_fp16" = Some fp ->
  Forall (step_ok g glide_model glide_diffusion) dataloader ->
  let r :=
    run_glide_finetune_epoch g sample_draws glide_model glide_diffusion
      glide_options optimizer sample_bs prompt outputs_dir checkpoints_dir
      log_frequency (Some run_name) dataloader w in
  let w' := snd r in
  exists records losses,
    (dataloader <> [] -> fst r = inr tt) /\
    Forall2 (is_loss g glide_model glide_diffusion) dataloader losses /\
    log_records (trace w') = log_records (trace w) ++ records /\
    length records = length dataloader /\
    (forall i rec l v,
       nth_error records i = Some rec -> nth_error losses i = Some l ->
       rec !! "loss" = Some v -> v = VFloat l) /\
    (forall i j ri rj,
       nth_error records i = Some ri -> nth_error records j = Some rj ->
       (i mod 10 = j mod 10)%nat ->
       (is_Some (ri !! "loss") <-> is_Some (rj !! "loss"))) /\
    (forall r0 r1,
       nth_error records 0 = Some r0 -> nth_error records 1 = Some r1 ->
       ~ (is_Some (r0 !! "loss") <-> is_Some (r1 !! "loss"))).
Proof.
  intros Hlf Hfp Hok r w'.
  destruct (epoch_spec g sample_draws glide_model glide_diffusion glide_options
              optimizer sample_bs prompt outputs_dir checkpoints_dir
              log_frequency (Some run_name) Hlf (ex_intro _ _ eq_refl)
              dataloader w fp Hfp Hok)
    as (ils & w1 & Hep & Htr & Hfst & Hls).
  subst w' r. rewrite Hep. cbn [fst snd]. rewrite Htr.
  assert (Hlen : length ils = length dataloader).
  { rewrite <- (length_map fst), Hfst, length_seq. reflexivity. }
  assert (Hfst' : map fst ils = seq 0 (length ils)) by (rewrite Hlen; exact Hfst).
  exists (map (fun il => iter_log prompt outputs_dir log_frequency (fst il) (snd il))
              ils), (map snd ils).
  split; [destruct dataloader; [congruence | reflexivity]|].
  split; [apply Forall2_map_snd; exact Hls|].
  split; [rewrite log_records_app, log_records_epoch; reflexivity|].
  split; [rewrite length_map; exact Hlen|].
  split; [|split].
  - intros i rec l v Hrec Hl Hv.
    destruct (nth_error_iter_logs _ _ _ _ _ _ Hfst' Hrec) as (l' & Hl' & ->).
    assert (l' = l) by congruence. subst l'.
    rewrite iter_log_loss in Hv.
    destruct (Z.of_nat i mod 10 =? 0); congruence.
  - intros i j ri rj Hi Hj Hmod.
    destruct (nth_error_iter_logs _ _ _ _ _ _ Hfst' Hi) as (li & _ & ->).
    destruct (nth_error_iter_logs _ _ _ _ _ _ Hfst' Hj) as (lj & _ & ->).
    rewrite !iter_log_loss.
    assert (Hz : Z.of_nat i mod 10 = Z.of_nat j mod 10).
    { change 10 with (Z.of_nat 10). rewrite <- !Nat2Z.inj_mod, Hmod.
      reflexivity. }
    rewrite Hz. destruct (Z.of_nat j mod 10 =? 0); split; intros [v Hv];
      first [discriminate | eexists; reflexivity].
  - intros r0 r1 H0 H1.
    destruct (nth_error_iter_logs _ _ _ _ _ _ Hfst' H0) as (l0 & _ & ->).
    destruct (nth_error_iter_logs _ _ _ _ _ _ Hfst' H1) as (l1 & _ & ->).
    rewrite !iter_log_loss.
    change (Z.of_nat 0 mod 10 =? 0) with true.
    change (Z.of_nat 1 mod 10 =? 0) with false.
    intros [_ H]. destruct H as [v Hv]; [eexists; reflexivity | discriminate].
Qed.

Lemma C5_log_witness :
  let r :=
    run_glide_finetune_epoch toy_generator 7 (toy_model 4) toy_diffusion
      toy_options (optimizer_object (toy_model 4) false (Q2Qc (1 # 100000)))
      1 "a prompt" "./outputs" "./ckpt/" 100 (Some "glide_finetune")
      [toy_batch; toy_batch; toy_batch] initial_world in
  let w' := snd r in
  exists records losses,
    ([toy_batch; toy_batch; toy_batch] <> [] -> fst r = inr tt) /\
    Forall2 (is_loss toy_generator (toy_model 4) toy_diffusion)
            [toy_batch; toy_batch; toy_batch] losses /\
    log_records (trace w') = log_records (trace initial_world) ++ records /\
    length records = 3%nat /\
    (forall i rec l v,
       nth_error records i = Some rec -> nth_error losses i = Some l ->
       rec !! "loss" = Some v -> v = VFloat l) /\
    (forall i j ri rj,
       nth_error records i = Some ri -> nth_error records j = Some rj ->
       (i mod 10 = j mod 10)%nat ->
       (is_Some (ri !! "loss") <-> is_Some (rj !! "loss"))) /\
    (forall r0 r1,
       nth_error records 0 = Some r0 -> nth_error records 1 = Some r1 ->
       ~ (is_Some (r0 !! "loss") <-> is_Some (r1 !! "loss"))).
Proof.
  apply (C5_one_log_call_per_iteration toy_generator 7 (toy_model 4)
           toy_diffusion toy_options _ 1 "a prompt" "./outputs" "./ckpt/" 100
           "glide_finetune" [toy_batch; toy_batch; toy_batch] (PBool false)
           initial_world).
  - lia.
  - reflexivity.
  - exact (toy_loader_ok 3).
Defined.

(** C5, as stated, fails: in a run of one epoch over one batch the only log
    call passes an empty record, so the loss of iteration 0 is not logged. *)
Lemma C5_counterexample :
  fst (run_glide_finetune (toy_ext 4 1) (toy_args 1) initial_world) = inr tt /\
  counter_values
    (trace (snd (run_glide_finetune (toy_ext 4 1) (toy_args 1) initial_world)))
  = [0%nat] /\
  log_records
    (trace (snd (run_glide_finetune (toy_ext 4 1) (toy_args 1) initial_world)))
  = [∅].
Proof. repeat split; vm_compute; reflexivity. Qed.

(** C6.  Once the options are loaded: a dataset of length zero makes the
    driver stop with the assertion error "Dataset is empty" after the set-up
    events only, none of which is a training step, a sampler call or a
    checkpoint write; a dataset that is not empty passes the check (the run
    goes on to report its size, and whatever happens later is not an
    assertion error). *)
Theorem C6_dataset_empty_guard (ext : Externals) (a : Args)
    (glide_model : Text2ImUNet) (glide_diffusion : SpacedDiffusion)
    (glide_options : gmap string pyval) (text_ctx : pyval) (w : world) :
  load_base_model ext (resume_ckpt a) (use_fp16 a) (dropout a)
    (freeze_transformer a) (freeze_diffusion a) (activation_checkpointing a)
  = (glide_model, glide_diffusion, glide_options) ->
  glide_options !! "text_ctx" = Some text_ctx ->
  let dataset := run_dataset ext a text_ctx in
  let r := run_glide_finetune ext a w in
  (dataset_len dataset = 0%nat ->
     r = (inl (AssertionError "Dataset is empty"),
          mkWorld (trace w ++ setup_events ext a) (rng w)) /\
     List.filter is_training_event (setup_events ext a) = []) /\
  ((0 < dataset_len dataset)%nat ->
     (forall msg, fst r <> inl (AssertionError msg)) /\
     exists t,
       trace (snd r) =
       trace w ++ setup_events ext a
       ++ Print (MsgDatasetContains (dataset_len dataset)) :: t).
Proof.
  intros Hload Hctx dataset r. subst r.
  unfold run_glide_finetune. cbn zeta. rewrite !bind_emit, Hload.
  unfold dict_get. rewrite Hctx, bind_ret, bind_emit.
  fold (run_dataset ext a text_ctx). fold dataset.
  unfold py_assert. split.
  - intros Hlen. rewrite Hlen. cbn [Nat.ltb Nat.leb].
    split; [|reflexivity].
    unfold bind at 1. unfold raise. cbn [trace rng]. f_equal. f_equal.
    unfold setup_events, run_checkpoints_dir. rewrite <- !app_assoc. reflexivity.
  - intros Hlen.
    destruct (Nat.ltb_spec 0 (dataset_len dataset)) as [_|?]; [|lia].
    rewrite bind_ret.
    lazymatch goal with
    | |- context [bind (emit (Print (MsgDatasetContains ?n))) ?k ?w0] =>
        assert (Hk : tame (k tt));
        [| destruct (Hk (mkWorld (trace w0 ++ [Print (MsgDatasetContains n)])
                                 (rng w0))) as [[t Htr] Herr];
           change (bind (emit (Print (MsgDatasetContains n))) k w0)
             with (k tt (mkWorld (trace w0 ++ [Print (MsgDatasetContains n)])
                                 (rng w0))) ]
    end.
    { apply tame_bind.
      { unfold DataLoader. destruct (0 <? batch_size a); tame_step. }
      intros dataloader. repeat tame_step. }
    split.
    + intros msg Hr. exact (Herr _ Hr msg eq_refl).
    + exists t. etransitivity; [exact Htr|]. cbn [trace].
      unfold setup_events, run_checkpoints_dir.
      rewrite <- !app_assoc. reflexivity.
Qed.

Lemma C6_guard_witness :
  run_glide_finetune (toy_ext 4 0) (toy_args 1) initial_world =
    (inl (AssertionError "Dataset is empty"),
     mkWorld ([] ++ setup_events (toy_ext 4 0) (toy_args 1)) 0) /\
  List.filter is_training_event (setup_events (toy_ext 4 0) (toy_args 1)) = [].
Proof.
  refine (proj1 (C6_dataset_empty_guard (toy_ext 4 0) (toy_args 1) (toy_model 4)
                   toy_diffusion toy_options (PInt 128) initial_world _ _) _);
    reflexivity.
Defined.

(** C7, as the code has it.  With C > 0 channels in the noised image and M
    channels in the model output: when C < M <= 2C the split yields two
    tensors, the first of C channels taken as the predicted noise, the
    second of M - C channels left unused (so both have the shape
    (B, C, H, W) exactly when M = 2C); when M <= C or M > 2C the unpacking
    raises [ValueError] inside the training step, after the draws. *)
Theorem C7_split_of_model_output (g : Generator) (glide_model : Text2ImUNet)
    (glide_diffusion : SpacedDiffusion) (batch : Batch) (w : world) :
  (2 <= length (betas glide_diffusion))%nat ->
  let noise := step_noise g (snd batch) (rng w) in
  let out := step_output g glide_model glide_diffusion batch (rng w) in
  let C := dim1 (step_x_t g glide_diffusion (snd batch) (rng w)) in
  let M := dim1 out in
  (0 < C)%nat ->
  ((C < M)%nat /\ (M <= 2 * C)%nat ->
     exists epsilon rest,
       th_split out C = inr [epsilon; rest] /\
       shape epsilon = (dim0 out, C, dim2 out, dim3 out) /\
       shape rest = (dim0 out, (M - C)%nat, dim2 out, dim3 out) /\
       (forall b c h x, data epsilon b c h x = data out b c h x) /\
       train_step g glide_model glide_diffusion batch w =
         (squared_error_loss noise epsilon, step_world batch w)) /\
  ((M <= C)%nat \/ (2 * C < M)%nat ->
     train_step g glide_model glide_diffusion batch w =
       (inl ValueError, step_world batch w)).
Proof.
  intros HT noise out C M HC. split.
  - intros [Hlo Hhi].
    exists (split_chunk out C 0), (split_chunk out C 1).
    split; [apply th_split_two; assumption|].
    split; [unfold shape; cbn; f_equal; f_equal; f_equal; fold M; lia|].
    split; [unfold shape; cbn; f_equal; f_equal; f_equal; fold M; lia|].
    split; [reflexivity|].
    rewrite train_step_unfold by exact HT.
    fold out. fold C. rewrite th_split_two by assumption. reflexivity.
  - intros [Hle|Hgt]; rewrite train_step_unfold by exact HT; fold out; fold C.
    + rewrite th_split_one by assumption. reflexivity.
    + destruct (th_split_many out C HC Hgt) as (x & y & z & rest & ->).
      reflexivity.
Qed.

Lemma C7_split_witness :
  let noise := step_noise toy_generator (snd toy_batch) 0 in
  let out := step_output toy_generator (toy_model 4) toy_diffusion toy_batch 0 in
  exists epsilon rest,
    th_split out 2 = inr [epsilon; rest] /\
    shape epsilon = (1%nat, 2%nat, 1%nat, 1%nat) /\
    shape rest = (1%nat, 2%nat, 1%nat, 1%nat) /\
    (forall b c h x, data epsilon b c h x = data out b c h x) /\
    train_step toy_generator (toy_model 4) toy_diffusion toy_batch initial_world =
      (squared_error_loss noise epsilon, step_world toy_batch initial_world).
Proof.
  refine (proj1 (C7_split_of_model_output toy_generator (toy_model 4)
                   toy_diffusion toy_batch initial_world _ _) _);
    cbn; lia.
Defined.

(** C7, as stated, fails: a network that returns three channels for
    two-channel images (three is not twice two) meets no error at all; the
    run goes through both training steps and ends normally, and the second
    part of the split has one channel only. *)
Lemma C7_counterexample :
  let out := step_output toy_generator (toy_model 3) toy_diffusion toy_batch 0 in
  dim1 (snd toy_batch) = 2%nat /\
  dim1 out = 3%nat /\
  option_map (map shape) (match th_split out 2 with inr l => Some l | inl _ => None end)
    = Some [(1, 2, 1, 1)%nat; (1, 1, 1, 1)%nat] /\
  fst (run_glide_finetune (toy_ext 3 2) (toy_args 1) initial_world) = inr tt /\
  counter_values
    (trace (snd (run_glide_finetune (toy_ext 3 2) (toy_args 1) initial_world)))
    = [0%nat; 1%nat].
Proof. vm_compute. repeat split; reflexivity. Qed.

(** C8.  On a run that gets through its set-up (the checkpoint directory is
    not the empty path, the options are loaded, the dataset is not empty,
    the batch size is positive, the tracker set-up returns a run, the
    batches go through the training step), with a learning rate that is not
    negative and a model of which some parameter requires a gradient (what
    the constructors insist on): the constructor call of the driver
    returns an optimizer that holds exactly the parameters of the model
    whose [requires_grad] is set, in their order, at the configured learning
    rate; it is SGD with momentum 0.9 when [use_sgd] is set and AdamW (with
    weight decay 0) otherwise; and the optimizer calls of the run, one for
    every batch of every epoch, are all made with this optimizer. *)
Theorem C8_optimizer_over_trainable (ext : Externals) (a : Args)
    (glide_model : Text2ImUNet) (glide_diffusion : SpacedDiffusion)
    (glide_options : gmap string pyval) (text_ctx fp : pyval)
    (run_name : string) (w : world) :
  run_checkpoints_dir ext a <> "" ->
  load_base_model ext (resume_ckpt a) (use_fp16 a) (dropout a)
    (freeze_transformer a) (freeze_diffusion a) (activation_checkpointing a)
  = (glide_model, glide_diffusion, glide_options) ->
  glide_options !! "text_ctx" = Some text_ctx ->
  glide_options !! "use_fp16" = Some fp ->
  log_frequency a <> 0 ->
  (0 < dataset_len (run_dataset ext a text_ctx))%nat ->
  0 < batch_size a ->
  (0 <= learning_rate a)%Qc ->
  (exists p, In p (parameters glide_model) /\ requires_grad p = true) ->
  run_tracker ext a = Some run_name ->
  (forall e, (e < Z.to_nat (num_epochs a))%nat ->
     run_loader ext a text_ctx e <> [] /\
     Forall (run_step_ok ext glide_model glide_diffusion)
            (run_loader ext a text_ctx e)) ->
  exists opt w',
    (forall w0,
       make_optimizer glide_model (use_sgd a) (learning_rate a) w0 =
       (inr opt, w0)) /\
    optimizer_params opt =
      List.filter (fun p => requires_grad p) (parameters glide_model) /\
    (forall p, In p (optimizer_params opt) <->
               In p (parameters glide_model) /\ requires_grad p = true) /\
    optimizer_lr opt = learning_rate a /\
    (use_sgd a = true ->
       opt = SGD (optimizer_params opt) (learning_rate a) (Q2Qc (9 # 10))) /\
    (use_sgd a = false ->
       opt = AdamW (optimizer_params opt) (learning_rate a) (Q2Qc 0)) /\
    run_glide_finetune ext a w = (inr tt, w') /\
    optimizers_used (trace w') =
      optimizers_used (trace w)
      ++ repeat opt
           (list_sum (map (fun e => length (run_loader ext a text_ctx e))
                          (seq 0 (Z.to_nat (num_epochs a))))).
Proof.
  intros _ Hload Hctx Hfp Hlf Hds Hbs Hlr Htrain Hrun_name Hes.
  destruct (run_spec ext a glide_model glide_diffusion glide_options text_ctx fp
              run_name Hload Hctx Hfp Hlf Hds Hbs Hlr Htrain Hrun_name w Hes)
    as (eps & w' & Hrun & Htr & Hfst & Hall).
  exists (optimizer_object glide_model (use_sgd a) (learning_rate a)), w'.
  assert (Hps : optimizer_params
                  (optimizer_object glide_model (use_sgd a) (learning_rate a)) =
                List.filter (fun p => requires_grad p) (parameters glide_model)).
  { unfold optimizer_object. destruct (use_sgd a); reflexivity. }
  split; [intros w0; apply make_optimizer_ok; assumption|].
  split; [exact Hps|].
  split; [intros p; rewrite Hps; apply filter_In|].
  split; [unfold optimizer_object; destruct (use_sgd a); reflexivity|].
  split; [intros Hs; unfold optimizer_object; rewrite Hs; reflexivity|].
  split; [intros Hs; unfold optimizer_object; rewrite Hs; reflexivity|].
  split; [exact Hrun|].
  rewrite Htr. unfold optimizers_used at 1. rewrite flat_map_app.
  fold (optimizers_used (trace w)). f_equal.
  change (flat_map _ (start_events ext a text_ctx
                      ++ flat_map (epoch_block ext a glide_model fp) eps))
    with (optimizers_used (start_events ext a text_ctx
                           ++ flat_map (epoch_block ext a glide_model fp) eps)).
  rewrite (optimizers_used_run ext a glide_model text_ctx fp eps).
  rewrite (list_sum_epochs ext a glide_model glide_diffusion text_ctx eps Hall).
  rewrite Hfst. reflexivity.
Qed.

Lemma C8_optimizer_witness :
  let ext := toy_ext 4 2 in
  let a := toy_args 2 in
  exists opt w',
    (forall w0,
       make_optimizer (toy_model 4) (use_sgd a) (learning_rate a) w0 =
       (inr opt, w0)) /\
    optimizer_params opt =
      List.filter (fun p => requires_grad p) (parameters (toy_model 4)) /\
    (forall p, In p (optimizer_params opt) <->
               In p (parameters (toy_model 4)) /\ requires_grad p = true) /\
    optimizer_lr opt = learning_rate a /\
    (use_sgd a = true ->
       opt = SGD (optimizer_params opt) (learning_rate a) (Q2Qc (9 # 10))) /\
    (use_sgd a = false ->
       opt = AdamW (optimizer_params opt) (learning_rate a) (Q2Qc 0)) /\
    run_glide_finetune ext a initial_world = (inr tt, w') /\
    optimizers_used (trace w') =
      optimizers_used (trace initial_world)
      ++ repeat opt
           (list_sum (map (fun e => length (run_loader ext a (PInt 128) e))
                          (seq 0 (Z.to_nat (num_epochs a))))).
Proof.
  apply (C8_optimizer_over_trainable (toy_ext 4 2) (toy_args 2) (toy_model 4)
           toy_diffusion toy_options (PInt 128) (PBool false) "glide_finetune"
           initial_world).
  - discriminate.
  - reflexivity.
  - reflexivity.
  - reflexivity.
  - cbn. lia.
  - cbn. lia.
  - cbn. lia.
  - discriminate.
  - eexists. split; [left; reflexivity | reflexivity].
  - reflexivity.
  - exact (toy_run_loaders 1 2).
Defined.




(** C10.  In a run that gets through its set-up (the checkpoint directory
    is not the empty path, the options are loaded, the dataset is not empty,
    the batch size is positive, the learning rate is not negative, some
    parameter requires a gradient, the tracker set-up returns a run) and
    whose loader yields the same number L >= 1 of batches
    in every epoch, all going through the training step: every epoch ends
    with the message of the final checkpoint and one write of the file
    [os.path.join(checkpoints_dir, "glide-ft-<L-1>.pt")], named after the
    last index of the epoch and after no other index; the writes of a run
    are the same list of files once per epoch; and after the run that file
    holds the weights after all the updates of the run, the writes of the
    earlier epochs being overwritten. *)
Theorem C10_final_checkpoint_every_epoch (ext : Externals) (a : Args)
    (glide_model : Text2ImUNet) (glide_diffusion : SpacedDiffusion)
    (glide_options : gmap string pyval) (text_ctx fp : pyval)
    (run_name : string) (w : world) (n : nat) :
  run_checkpoints_dir ext a <> "" ->
  load_base_model ext (resume_ckpt a) (use_fp16 a) (dropout a)
    (freeze_transformer a) (freeze_diffusion a) (activation_checkpointing a)
  = (glide_model, glide_diffusion, glide_options) ->
  glide_options !! "text_ctx" = Some text_ctx ->
  glide_options !! "use_fp16" = Some fp ->
  log_frequency a <> 0 ->
  (0 < dataset_len (run_dataset ext a text_ctx))%nat ->
  0 < batch_size a ->
  (0 <= learning_rate a)%Qc ->
  (exists p, In p (parameters glide_model) /\ requires_grad p = true) ->
  run_tracker ext a = Some run_name ->
  (forall e, (e < Z.to_nat (num_epochs a))%nat ->
     length (run_loader ext a text_ctx e) = S n /\
     Forall (run_step_ok ext glide_model glide_diffusion)
            (run_loader ext a text_ctx e)) ->
  let dir := run_checkpoints_dir ext a in
  let E := Z.to_nat (num_epochs a) in
  exists eps w',
    checkpoint_path dir n =
      os_path_join dir ("glide-ft-" +:+ pretty n +:+ ".pt") /\
    (forall k, checkpoint_path dir k = checkpoint_path dir n -> k = n) /\
    run_glide_finetune ext a w = (inr tt, w') /\
    trace w' =
      trace w ++ start_events ext a text_ctx
      ++ flat_map (epoch_block ext a glide_model fp) eps /\
    map fst eps = seq 0 E /\
    Forall (fun p =>
              exists pre,
                epoch_block ext a glide_model fp p =
                pre ++ [Print MsgFinished; ThSave (checkpoint_path dir n);
                        Print (MsgSavedCheckpoint n dir)]) eps /\
    saved_paths (trace w') =
      saved_paths (trace w)
      ++ flat_map
           (fun _ =>
              map (checkpoint_path dir) (List.filter checkpoint_due (seq 0 (S n)))
              ++ [checkpoint_path dir n])
           (seq 0 E) /\
    ((0 < E)%nat ->
       length (steps (interp (trace w'))) =
         (length (steps (interp (trace w))) + E * S n)%nat /\
       files (interp (trace w')) !! checkpoint_path dir n =
         Some (length (steps (interp (trace w))) + E * S n)%nat).
Proof.
  intros _ Hload Hctx Hfp Hlf Hds Hbs Hlr Htrain Hrun_name Hes dir E.
  assert (Hes' : forall e, (e < Z.to_nat (num_epochs a))%nat ->
            run_loader ext a text_ctx e <> [] /\
            Forall (run_step_ok ext glide_model glide_diffusion)
                   (run_loader ext a text_ctx e)).
  { intros e He. destruct (Hes e He) as [Hl Hok]. split; [|exact Hok].
    intros Hnil. rewrite Hnil in Hl. discriminate. }
  destruct (run_spec ext a glide_model glide_diffusion glide_options text_ctx fp
              run_name Hload Hctx Hfp Hlf Hds Hbs Hlr Htrain Hrun_name w Hes')
    as (eps & w' & Hrun & Htr & Hfst & Hall).
  assert (Hlen : Forall (fun p : nat * list (nat * Qc) => length (snd p) = S n) eps).
  { assert (Hin : forall p, In p eps -> (fst p < E)%nat).
    { intros p Hp. apply (in_map fst) in Hp. rewrite Hfst in Hp.
      apply in_seq in Hp. lia. }
    clear Hfst Htr. induction Hall as [|p eps Hp _ IH]; constructor.
    - rewrite (pairs_ok_length ext a glide_model glide_diffusion text_ctx p Hp).
      apply Hes. apply Hin. left. reflexivity.
    - apply IH. intros q Hq. apply Hin. right. exact Hq. }
  exists eps, w'.
  split; [reflexivity|].
  split; [intros k; apply checkpoint_path_inj|].
  split; [exact Hrun|]. split; [exact Htr|]. split; [exact Hfst|].
  split; [|split].
  - clear -Hlen. induction Hlen as [|[e ils] eps Hp _ IH]; constructor; [|exact IH].
    cbn [snd] in Hp. unfold epoch_block, run_epoch_events, epoch_events.
    cbn [fst snd]. rewrite Hp. cbn [epoch_tail].
    exists (Print (MsgStartingEpoch e)
            :: [Makedirs (run_checkpoints_dir ext a); NewTrainer fp; TrainerZeroGrad]
            ++ flat_map
                 (iter_events (run_optimizer a glide_model) (sample_bs a)
                    (test_prompt a) "./outputs" (run_checkpoints_dir ext a)
                    (log_frequency a)) ils).
    cbn [app]. rewrite <- ?app_assoc. reflexivity.
  - destruct (run_saved_paths ext a glide_model glide_diffusion glide_options
                text_ctx fp run_name w Hload Hctx Hfp Hlf Hds Hbs Hlr Htrain
                Hrun_name Hes')
      as (w2 & Hrun2 & Hsp).
    assert (Hw : w2 = w') by congruence. subst w2.
    rewrite Hsp. f_equal. apply flat_map_ext_seq. intros e He.
    destruct (Hes e He) as [-> _]. cbn [Nat.sub]. rewrite Nat.sub_0_r.
    reflexivity.
  - intros HE. subst dir E. rewrite Htr, app_assoc, interp_app, interp_app.
    set (m0 := fold_left handle (start_events ext a text_ctx) (interp (trace w))).
    assert (Hs0 : steps m0 = steps (interp (trace w))) by reflexivity.
    assert (Hne : eps <> []).
    { intros ->. apply (f_equal length) in Hfst.
      rewrite length_seq in Hfst. cbn in Hfst. lia. }
    destruct (handle_epochs ext a glide_model fp n eps m0 Hlen Hne) as [H1 H2].
    assert (HlenE : length eps = Z.to_nat (num_epochs a)).
    { rewrite <- (length_map fst), Hfst, length_seq. reflexivity. }
    cbn zeta in H1, H2. rewrite H1, H2, Hs0, HlenE. split; reflexivity.
Qed.

Lemma C10_final_checkpoint_witness :
  let ext := toy_ext 4 2 in
  let a := toy_args 3 in
  let dir := run_checkpoints_dir ext a in
  exists eps w',
    checkpoint_path dir 1 =
      os_path_join dir ("glide-ft-" +:+ pretty 1%nat +:+ ".pt") /\
    (forall k, checkpoint_path dir k = checkpoint_path dir 1 -> k = 1%nat) /\
    run_glide_finetune ext a initial_world = (inr tt, w') /\
    trace w' =
      trace initial_world ++ start_events ext a (PInt 128)
      ++ flat_map (epoch_block ext a (toy_model 4) (PBool false)) eps /\
    map fst eps = seq 0 3 /\
    Forall (fun p =>
              exists pre,
                epoch_block ext a (toy_model 4) (PBool false) p =
                pre ++ [Print MsgFinished; ThSave (checkpoint_path dir 1);
                        Print (MsgSavedCheckpoint 1 dir)]) eps /\
    saved_paths (trace w') =
      saved_paths (trace initial_world)
      ++ flat_map
           (fun _ =>
              map (checkpoint_path dir) (List.filter checkpoint_due (seq 0 2))
              ++ [checkpoint_path dir 1])
           (seq 0 3) /\
    ((0 < 3)%nat ->
       length (steps (interp (trace w'))) =
         (length (steps (interp (trace initial_world))) + 3 * 2)%nat /\
       files (interp (trace w')) !! checkpoint_path dir 1 =
         Some (length (steps (interp (trace initial_world))) + 3 * 2)%nat).
Proof.
  apply (C10_final_checkpoint_every_epoch (toy_ext 4 2) (toy_args 3) (toy_model 4)
           toy_diffusion toy_options (PInt 128) (PBool false) "glide_finetune"
           initial_world 1).
  - discriminate.
  - reflexivity.
  - reflexivity.
  - reflexivity.
  - cbn. lia.
  - cbn. lia.
  - cbn. lia.
  - discriminate.
  - eexists. split; [left; reflexivity | reflexivity].
  - reflexivity.
  - intros e _. split; [reflexivity | exact (toy_loader_ok 2)].
Defined.

(** * Further properties of the script *)

(** ** The driver up to the first epoch *)

(** X1. A run whose options mapping has no "text_ctx" entry stops with
    [KeyError] when the dataset is about to be built: the checkpoint
    directory, the tracker session and the model exist by then, the dataset
    does not. *)
Theorem X1_missing_text_ctx (ext : Externals) (a : Args)
    (glide_model : Text2ImUNet) (glide_diffusion : SpacedDiffusion)
    (glide_options : gmap string pyval) (w : world) :
  load_base_model ext (resume_ckpt a) (use_fp16 a) (dropout a)
    (freeze_transformer a) (freeze_diffusion a) (activation_checkpointing a)
  = (glide_model, glide_diffusion, glide_options) ->
  glide_options !! "text_ctx" = None ->
  run_glide_finetune ext a w =
  (inl (KeyError "text_ctx"),
   mkWorld (trace w ++ [Makedirs (run_checkpoints_dir ext a);
                        WandbSetup (project_name a); Print MsgWandbSetup;
                        LoadBaseModel (resume_ckpt a)])
           (rng w)).
Proof.
  intros Hload Hctx.
  unfold run_glide_finetune. cbn zeta. rewrite !bind_emit, Hload.
  unfold dict_get. rewrite Hctx. unfold bind, raise. cbn [trace rng].
  unfold run_checkpoints_dir. rewrite <- !app_assoc. reflexivity.
Qed.

(** X2.  A run with a number of epochs that is zero or negative, on
    arguments the set-up accepts (a checkpoint directory that is not the
    empty path, which [os.makedirs] refuses; loaded options with a
    "text_ctx" entry; a dataset that is not empty; a positive batch size; a
    learning rate that is not negative; a parameter that requires a
    gradient), ends normally right after the set-up: it never looks at the
    loader, at the tracker run, at the "use_fp16" option or at the log
    frequency, trains nothing and writes no checkpoint. *)
Theorem X2_no_epochs_no_checkpoint (ext : Externals) (a : Args)
    (glide_model : Text2ImUNet) (glide_diffusion : SpacedDiffusion)
    (glide_options : gmap string pyval) (text_ctx : pyval) (w : world) :
  run_checkpoints_dir ext a <> "" ->
  load_base_model ext (resume_ckpt a) (use_fp16 a) (dropout a)
    (freeze_transformer a) (freeze_diffusion a) (activation_checkpointing a)
  = (glide_model, glide_diffusion, glide_options) ->
  glide_options !! "text_ctx" = Some text_ctx ->
  (0 < dataset_len (run_dataset ext a text_ctx))%nat ->
  0 < batch_size a ->
  (0 <= learning_rate a)%Qc ->
  (exists p, In p (parameters glide_model) /\ requires_grad p = true) ->
  num_epochs a <= 0 ->
  run_glide_finetune ext a w =
    (inr tt, mkWorld (trace w ++ start_events ext a text_ctx) (rng w)) /\
  List.filter is_training_event (start_events ext a text_ctx) = [] /\
  saved_paths (start_events ext a text_ctx) = [].
Proof.
  intros _ Hload Hctx Hds Hbs Hlr Htrain HE.
  rewrite (run_unfold ext a glide_model glide_diffusion glide_options text_ctx
             Hload Hctx Hds Hbs Hlr Htrain w).
  replace (Z.to_nat (num_epochs a)) with 0%nat by lia.
  repeat split.
Qed.

Lemma X1_missing_text_ctx_witness :
  run_glide_finetune (toy_ext_with ∅ 4 2) (toy_args 1) initial_world =
  (inl (KeyError "text_ctx"),
   mkWorld ([] ++ [Makedirs "./ckpt/"; WandbSetup "glide_finetune";
                   Print MsgWandbSetup; LoadBaseModel ""]) 0).
Proof.
  apply (X1_missing_text_ctx (toy_ext_with ∅ 4 2) (toy_args 1) (toy_model 4)
           toy_diffusion ∅ initial_world); reflexivity.
Defined.

Lemma X2_no_epochs_witness :
  run_glide_finetune (toy_ext 4 2) (toy_args 0) initial_world =
    (inr tt,
     mkWorld ([] ++ start_events (toy_ext 4 2) (toy_args 0) (PInt 128)) 0) /\
  List.filter is_training_event
    (start_events (toy_ext 4 2) (toy_args 0) (PInt 128)) = [] /\
  saved_paths (start_events (toy_ext 4 2) (toy_args 0) (PInt 128)) = [].
Proof.
  apply (X2_no_epochs_no_checkpoint (toy_ext 4 2) (toy_args 0) (toy_model 4)
           toy_diffusion toy_options (PInt 128) initial_world).
  - discriminate.
  - reflexivity.
  - reflexivity.
  - cbn. lia.
  - cbn. lia.
  - discriminate.
  - eexists. split; [left; reflexivity | reflexivity].
  - cbn. lia.
Defined.

(** ** Failures inside an epoch *)

Lemma bind_raise {A B : Type} (m : M A) (k : A -> M B) (w w' : world) (e : exn) :
  m w = (inl e, w') -> bind m k w = (inl e, w').
Proof. intros H. unfold bind. rewrite H. reflexivity. Qed.

Lemma epoch_missing_use_fp16 g sample_draws glide_model glide_diffusion
    (glide_options : gmap string pyval) optimizer sample_bs prompt outputs_dir
    checkpoints_dir log_frequency wandb_run dataloader (w : world) :
  glide_options !! "use_fp16" = None ->
  run_glide_finetune_epoch g sample_draws glide_model glide_diffusion
    glide_options optimizer sample_bs prompt outputs_dir checkpoints_dir
    log_frequency wandb_run dataloader w =
  (inl (KeyError "use_fp16"),
   mkWorld (trace w ++ [Makedirs checkpoints_dir]) (rng w)).
Proof.
  intros Hfp. unfold run_glide_finetune_epoch, dict_get.
  rewrite bind_emit, Hfp. reflexivity.
Qed.

(** X3.  A run of at least one epoch whose options mapping has no
    "use_fp16" entry, on arguments the set-up accepts (a checkpoint
    directory that is not the empty path, a "text_ctx" entry,
    a dataset that is not empty, a positive batch size, a learning rate that
    is not negative, a parameter that requires a gradient), gets through the
    whole set-up and stops with [KeyError] when the first epoch builds its
    trainer, before any batch is looked at. *)
Theorem X3_missing_use_fp16 (ext : Externals) (a : Args)
    (glide_model : Text2ImUNet) (glide_diffusion : SpacedDiffusion)
    (glide_options : gmap string pyval) (text_ctx : pyval) (w : world) :
  run_checkpoints_dir ext a <> "" ->
  load_base_model ext (resume_ckpt a) (use_fp16 a) (dropout a)
    (freeze_transformer a) (freeze_diffusion a) (activation_checkpointing a)
  = (glide_model, glide_diffusion, glide_options) ->
  glide_options !! "text_ctx" = Some text_ctx ->
  glide_options !! "use_fp16" = None ->
  (0 < dataset_len (run_dataset ext a text_ctx))%nat ->
  0 < batch_size a ->
  (0 <= learning_rate a)%Qc ->
  (exists p, In p (parameters glide_model) /\ requires_grad p = true) ->
  0 < num_epochs a ->
  run_glide_finetune ext a w =
  (inl (KeyError "use_fp16"),
   mkWorld (trace w ++ start_events ext a text_ctx
            ++ [Print (MsgStartingEpoch 0); Makedirs (run_checkpoints_dir ext a)])
           (rng w)).
Proof.
  intros _ Hload Hctx Hfp Hds Hbs Hlr Htrain HE.
  rewrite (run_unfold ext a glide_model glide_diffusion glide_options text_ctx
             Hload Hctx Hds Hbs Hlr Htrain w).
  destruct (Z.to_nat (num_epochs a)) as [|n] eqn:Hn; [lia|].
  cbn [seq for_loop].
  apply bind_raise, bind_raise. rewrite bind_emit.
  rewrite epoch_missing_use_fp16 by exact Hfp.
  cbn [trace rng]. rewrite <- !app_assoc. reflexivity.
Qed.

Lemma X3_missing_use_fp16_witness :
  run_glide_finetune (toy_ext_with (<["text_ctx" := PInt 128]> ∅) 4 2)
    (toy_args 1) initial_world =
  (inl (KeyError "use_fp16"),
   mkWorld ([] ++ start_events (toy_ext_with (<["text_ctx" := PInt 128]> ∅) 4 2)
                    (toy_args 1) (PInt 128)
            ++ [Print (MsgStartingEpoch 0); Makedirs "./ckpt/"]) 0).
Proof.
  apply (X3_missing_use_fp16 (toy_ext_with (<["text_ctx" := PInt 128]> ∅) 4 2)
           (toy_args 1) (toy_model 4) toy_diffusion
           (<["text_ctx" := PInt 128]> ∅) (PInt 128) initial_world).
  - discriminate.
  - reflexivity.
  - reflexivity.
  - reflexivity.
  - cbn. lia.
  - cbn. lia.
  - discriminate.
  - eexists. split; [left; reflexivity | reflexivity].
  - cbn. lia.
Defined.

Section EpochFailures.

Variable g : Generator.
Variable sample_draws : nat.
Variable glide_model : Text2ImUNet.
Variable glide_diffusion : SpacedDiffusion.
Variable glide_options : gmap string pyval.
Variable optimizer : Optimizer.
Variable sample_bs : Z.
Variable prompt : string.
Variable outputs_dir checkpoints_dir : string.
Variable fp : pyval.

Local Abbreviation step_ok := (step_ok g glide_model glide_diffusion).
Local Abbreviation is_loss := (is_loss g glide_model glide_diffusion).
Local Abbreviation body lf run :=
  (epoch_body g sample_draws glide_model glide_diffusion optimizer sample_bs
              prompt outputs_dir checkpoints_dir lf run).
Local Abbreviation epoch lf run :=
  (run_glide_finetune_epoch g sample_draws glide_model glide_diffusion
     glide_options optimizer sample_bs prompt outputs_dir checkpoints_dir
     lf run).

Hypothesis has_use_fp16 : glide_options !! "use_fp16" = Some fp.

(** The events of the epoch before its loop. *)
Lemma epoch_unfold (lf : Z) (run : option string) (dataloader : list Batch)
    (w : world) :
  epoch lf run dataloader w =
  bind (for_loop (enumerate dataloader) (body lf run) None)
    (fun last =>
       emit (Print MsgFinished) >>~
       match last with
       | Some (train_idx, _) => save_model checkpoints_dir train_idx
       | None => raise UnboundLocalError
       end)
    (mkWorld (trace w ++ [Makedirs checkpoints_dir; NewTrainer fp; TrainerZeroGrad])
             (rng w)).
Proof.
  unfold run_glide_finetune_epoch, dict_get, trainer_zero_grad.
  rewrite bind_emit, has_use_fp16, bind_ret, !bind_emit.
  cbn [trace rng]. rewrite <- !app_assoc. reflexivity.
Qed.

(** Iteration 0 up to the log call, whatever the log frequency. *)
Lemma first_iteration (lf : Z) (run : option string) (b : Batch) (w : world) :
  step_ok b ->
  exists l w',
    is_loss b l /\
    trace w' = trace w ++ [LoopIter 0; TrainerBackward l;
                           TrainerOptimize optimizer; TrainerZeroGrad] /\
    body lf run (0%nat, b) w = wandb_log run ∅ w'.
Proof.
  intros Hok.
  destruct (Hok (mkWorld (trace w ++ [LoopIter 0]) (rng w)))
    as (l & w1 & Hstep & Htr).
  exists l.
  exists (mkWorld (trace w ++ [LoopIter 0; TrainerBackward l;
                               TrainerOptimize optimizer; TrainerZeroGrad])
                  (rng w1)).
  split; [eexists; rewrite Hstep; reflexivity|].
  split; [reflexivity|].
  unfold epoch_body. rewrite bind_emit, (bind_ok _ _ _ _ _ Hstep).
  unfold trainer_backward, trainer_optimize, trainer_zero_grad.
  rewrite !bind_emit. cbn [trace rng]. rewrite Htr. cbn [trace].
  change (Z.of_nat 0) with 0.
  change (negb (0 mod 10 =? 0)) with false.
  change (0 <? 0) with false.
  change ((0 mod 1000 =? 0) && false) with false. cbn iota.
  rewrite !bind_ret. rewrite <- !app_assoc. reflexivity.
Qed.


End EpochFailures.

(** X4.  One call of the epoch function on a loader that yields no batch,
    with options that have a "use_fp16" entry, stops with
    [UnboundLocalError] when the final checkpoint is about to be saved,
    after the message that training is finished, whatever the log frequency
    and with or without a tracker run: the name of the file is taken from
    the loop variable, which was never bound.  Given a tracker run, a log
    frequency that is not zero and batches that all go through the training
    step, the empty loader is the only case in which the call fails. *)
Theorem X4_empty_loader_unbound (g : Generator) (sample_draws : nat)
    (glide_model : Text2ImUNet) (glide_diffusion : SpacedDiffusion)
    (glide_options : gmap string pyval) (optimizer : Optimizer) (sample_bs : Z)
    (prompt outputs_dir checkpoints_dir : string) (fp : pyval) (w : world) :
  glide_options !! "use_fp16" = Some fp ->
  let epoch :=
    run_glide_finetune_epoch g sample_draws glide_model glide_diffusion
      glide_options optimizer sample_bs prompt outputs_dir checkpoints_dir in
  (forall log_frequency wandb_run,
     epoch log_frequency wandb_run [] w =
     (inl UnboundLocalError,
      mkWorld (trace w ++ [Makedirs checkpoints_dir; NewTrainer fp;
                           TrainerZeroGrad; Print MsgFinished])
              (rng w))) /\
  (forall log_frequency run_name dataloader,
     log_frequency <> 0 ->
     Forall (step_ok g glide_model glide_diffusion) dataloader ->
     (fst (epoch log_frequency (Some run_name) dataloader w)
        = inl UnboundLocalError <-> dataloader = []) /\
     (dataloader <> [] ->
      fst (epoch log_frequency (Some run_name) dataloader w) = inr tt)).
Proof.
  intros Hfp epoch. subst epoch. split.
  - intros log_frequency wandb_run.
    rewrite (epoch_unfold g sample_draws glide_model glide_diffusion
               glide_options optimizer sample_bs prompt outputs_dir
               checkpoints_dir fp Hfp).
    cbn. rewrite <- !app_assoc. reflexivity.
  - intros log_frequency run_name dataloader Hlf Hok.
    destruct (epoch_spec g sample_draws glide_model glide_diffusion glide_options
                optimizer sample_bs prompt outputs_dir checkpoints_dir
                log_frequency (Some run_name) Hlf (ex_intro _ _ eq_refl)
                dataloader w fp Hfp Hok)
      as (ils & w1 & Hep & _).
    rewrite Hep. cbn [fst]. split.
    + destruct dataloader; cbn; split; intros H; congruence.
    + destruct dataloader; cbn; congruence.
Qed.

Lemma X4_empty_loader_witness :
  let epoch :=
    run_glide_finetune_epoch toy_generator 7 (toy_model 4) toy_diffusion
      toy_options (optimizer_object (toy_model 4) false (Q2Qc (1 # 100000)))
      1 "a prompt" "./outputs" "./ckpt/" in
  (forall log_frequency wandb_run,
     epoch log_frequency wandb_run [] initial_world =
     (inl UnboundLocalError,
      mkWorld ([] ++ [Makedirs "./ckpt/"; NewTrainer (PBool false);
                      TrainerZeroGrad; Print MsgFinished]) 0)) /\
  (forall log_frequency run_name dataloader,
     log_frequency <> 0 ->
     Forall (step_ok toy_generator (toy_model 4) toy_diffusion) dataloader ->
     (fst (epoch log_frequency (Some run_name) dataloader initial_world)
        = inl UnboundLocalError <-> dataloader = []) /\
     (dataloader <> [] ->
      fst (epoch log_frequency (Some run_name) dataloader initial_world) = inr tt)).
Proof.
  apply (X4_empty_loader_unbound toy_generator 7 (toy_model 4) toy_diffusion
           toy_options _ 1 "a prompt" "./outputs" "./ckpt/" (PBool false)
           initial_world).
  reflexivity.
Defined.

(** X5.  Called without a tracker run (the parameter defaults to [None]),
    the epoch function fails with [AttributeError] at the log call of its
    first iteration, whatever the log frequency: the first batch has been
    trained on and its optimizer update applied, nothing has been logged or
    saved. *)
Theorem X5_no_tracker_fails_after_first_update (g : Generator)
    (sample_draws : nat) (glide_model : Text2ImUNet)
    (glide_diffusion : SpacedDiffusion) (glide_options : gmap string pyval)
    (optimizer : Optimizer) (sample_bs : Z)
    (prompt outputs_dir checkpoints_dir : string) (log_frequency : Z)
    (b : Batch) (rest : list Batch) (fp : pyval) (w : world) :
  glide_options !! "use_fp16" = Some fp ->
  step_ok g glide_model glide_diffusion b ->
  exists l w',
    is_loss g glide_model glide_diffusion b l /\
    run_glide_finetune_epoch g sample_draws glide_model glide_diffusion
      glide_options optimizer sample_bs prompt outputs_dir checkpoints_dir
      log_frequency None (b :: rest) w = (inl AttributeError, w') /\
    trace w' = trace w ++ [Makedirs checkpoints_dir; NewTrainer fp;
                           TrainerZeroGrad; LoopIter 0; TrainerBackward l;
                           TrainerOptimize optimizer; TrainerZeroGrad] /\
    steps (interp (trace w')) = steps (interp (trace w)) ++ [[l]] /\
    log_records (trace w') = log_records (trace w) /\
    saved_paths (trace w') = saved_paths (trace w).
Proof.
  intros Hfp Hok.
  rewrite (epoch_unfold g sample_draws glide_model glide_diffusion
             glide_options optimizer sample_bs prompt outputs_dir
             checkpoints_dir fp Hfp).
  set (w0 := mkWorld _ _).
  destruct (first_iteration g sample_draws glide_model glide_diffusion optimizer
              sample_bs prompt outputs_dir checkpoints_dir log_frequency None
              b w0 Hok) as (l & w1 & Hl & Htr & Hbody).
  exists l, w1. split; [exact Hl|].
  assert (Htr' : trace w1 =
            trace w ++ [Makedirs checkpoints_dir; NewTrainer fp;
                        TrainerZeroGrad; LoopIter 0; TrainerBackward l;
                        TrainerOptimize optimizer; TrainerZeroGrad]).
  { rewrite Htr. subst w0. cbn [trace]. rewrite <- app_assoc. reflexivity. }
  split; [|split; [exact Htr'|]].
  - cbn [enumerate enumerate_from for_loop].
    apply bind_raise, bind_raise. rewrite Hbody. reflexivity.
  - rewrite Htr', interp_app, log_records_app, saved_paths_app.
    cbn. rewrite !app_nil_r. repeat split.
Qed.

Lemma X5_no_tracker_witness :
  exists l w',
    is_loss toy_generator (toy_model 4) toy_diffusion toy_batch l /\
    run_glide_finetune_epoch toy_generator 7 (toy_model 4) toy_diffusion
      toy_options (optimizer_object (toy_model 4) false (Q2Qc (1 # 100000)))
      1 "a prompt" "./outputs" "./ckpt/" 100 None
      (toy_batch :: [toy_batch]) initial_world = (inl AttributeError, w') /\
    trace w' = trace initial_world
               ++ [Makedirs "./ckpt/"; NewTrainer (PBool false);
                   TrainerZeroGrad; LoopIter 0; TrainerBackward l;
                   TrainerOptimize
                     (optimizer_object (toy_model 4) false (Q2Qc (1 # 100000)));
                   TrainerZeroGrad] /\
    steps (interp (trace w')) = steps (interp (trace initial_world)) ++ [[l]] /\
    log_records (trace w') = log_records (trace initial_world) /\
    saved_paths (trace w') = saved_paths (trace initial_world).
Proof.
  apply (X5_no_tracker_fails_after_first_update toy_generator 7 (toy_model 4)
           toy_diffusion toy_options _ 1 "a prompt" "./outputs" "./ckpt/" 100
           toy_batch [toy_batch] (PBool false) initial_world).
  - reflexivity.
  - exact toy_step_ok.
Defined.



(** ** Sampling *)

Section Sampling.

Variable optimizer : Optimizer.
Variable sample_bs : Z.
Variable prompt : string.
Variable outputs_dir checkpoints_dir : string.
Variable log_frequency : Z.
Variable fp : pyval.

Local Abbreviation sample_due := (sample_due log_frequency).
Local Abbreviation sample_path := (sample_path outputs_dir).
Local Abbreviation iter_log := (iter_log prompt outputs_dir log_frequency).
Local Abbreviation iter_events :=
  (iter_events optimizer sample_bs prompt outputs_dir checkpoints_dir log_frequency).
Local Abbreviation epoch_events :=
  (epoch_events optimizer sample_bs prompt outputs_dir checkpoints_dir log_frequency).

Lemma image_paths_iter (il : nat * Qc) :
  image_paths (iter_events il) =
  if sample_due (fst il) then [sample_path (fst il)] else [].
Proof.
  destruct il as [i l]. unfold iter_events. cbn [fst snd].
  destruct (loss_due i), (sample_due i), (checkpoint_due i); reflexivity.
Qed.

Lemma sampler_calls_iter (il : nat * Qc) :
  sampler_calls (iter_events il) =
  if sample_due (fst il) then [(prompt, sample_bs)] else [].
Proof.
  destruct il as [i l]. unfold iter_events. cbn [fst snd].
  destruct (loss_due i), (sample_due i), (checkpoint_due i); reflexivity.
Qed.

Lemma image_paths_epoch (ils : list (nat * Qc)) :
  image_paths (epoch_events fp ils) =
  map sample_path (List.filter sample_due (map fst ils)).
Proof.
  unfold epoch_events, image_paths. rewrite !flat_map_app, flat_map_flat_map.
  replace (flat_map _ (epoch_tail checkpoints_dir (length ils)))
    with (@nil string) by (destruct (length ils); reflexivity).
  cbn [flat_map app]. rewrite app_nil_r.
  induction ils as [|il ils IH]; [reflexivity|].
  cbn [flat_map map List.filter]. rewrite IH.
  change (flat_map _ (iter_events il)) with (image_paths (iter_events il)).
  rewrite image_paths_iter. destruct (sample_due (fst il)); reflexivity.
Qed.

Lemma sampler_calls_epoch (ils : list (nat * Qc)) :
  sampler_calls (epoch_events fp ils) =
  map (fun _ => (prompt, sample_bs)) (List.filter sample_due (map fst ils)).
Proof.
  unfold epoch_events, sampler_calls. rewrite !flat_map_app, flat_map_flat_map.
  replace (flat_map _ (epoch_tail checkpoints_dir (length ils)))
    with (@nil (string * Z)) by (destruct (length ils); reflexivity).
  cbn [flat_map app]. rewrite app_nil_r.
  induction ils as [|il ils IH]; [reflexivity|].
  cbn [flat_map map List.filter]. rewrite IH.
  change (flat_map _ (iter_events il)) with (sampler_calls (iter_events il)).
  rewrite sampler_calls_iter. destruct (sample_due (fst il)); reflexivity.
Qed.

Lemma sample_due_spec (i : nat) :
  log_frequency <> 0 ->
  sample_due i = true <-> (0 < i)%nat /\ (log_frequency | Z.of_nat i).
Proof.
  intros Hlf. unfold sample_due.
  rewrite andb_true_iff, Z.ltb_lt, Z.eqb_eq, (Z.mod_divide _ _ Hlf).
  split; intros [H1 H2]; split; try exact H2; lia.
Qed.

Lemma iter_log_samples (i : nat) (l : Qc) :
  iter_log i l !! "samples" =
  if sample_due i then Some (VImage (sample_path i) prompt) else None.
Proof.
  unfold iter_log.
  destruct (sample_due i), (loss_due i);
    rewrite ?lookup_insert_eq;
    repeat (rewrite lookup_insert_ne by discriminate);
    rewrite ?lookup_empty; reflexivity.
Qed.

Lemma iter_log_iter (i : nat) (l : Qc) :
  iter_log i l !! "iter" =
  if loss_due i || sample_due i then Some (VInt (Z.of_nat i)) else None.
Proof.
  unfold iter_log.
  destruct (sample_due i), (loss_due i); cbn [orb];
    repeat (rewrite lookup_insert_ne by discriminate);
    rewrite ?lookup_insert_eq, ?lookup_empty; reflexivity.
Qed.

End Sampling.

(** X7.  In one call of the epoch function, given a tracker run, a log
    frequency that is not zero and batches that all go through the training
    step, the sampler runs, and a preview image is saved, exactly in the
    iterations whose index is positive and divisible by the log frequency
    (so never in iteration 0, and a negative frequency counts like its
    absolute value), in the order of the iterations; the image goes to
    [os.path.join(outputs_dir, "<i>.png")]; and of the records the call
    logs, one per iteration, the record of such an iteration holds the image
    under "samples", while the records of the other iterations have no such
    entry. *)
Theorem X7_sampling_schedule (g : Generator) (sample_draws : nat)
    (glide_model : Text2ImUNet) (glide_diffusion : SpacedDiffusion)
    (glide_options : gmap string pyval) (optimizer : Optimizer) (sample_bs : Z)
    (prompt outputs_dir checkpoints_dir : string) (log_frequency : Z)
    (run_name : string) (dataloader : list Batch) (fp : pyval) (w : world) :
  log_frequency <> 0 ->
  glide_options !! "use_fp16" = Some fp ->
  Forall (step_ok g glide_model glide_diffusion) dataloader ->
  let w' :=
    snd (run_glide_finetune_epoch g sample_draws glide_model glide_diffusion
           glide_options optimizer sample_bs prompt outputs_dir checkpoints_dir
           log_frequency (Some run_name) dataloader w) in
  let due := List.filter (sample_due log_frequency) (seq 0 (length dataloader)) in
  image_paths (trace w') =
    image_paths (trace w)
    ++ map (fun i => os_path_join outputs_dir (pretty i +:+ ".png")) due /\
  sampler_calls (trace w') =
    sampler_calls (trace w) ++ map (fun _ => (prompt, sample_bs)) due /\
  (forall i, sample_due log_frequency i = true <->
             (0 < i)%nat /\ (log_frequency | Z.of_nat i)) /\
  (forall i, sample_due (- log_frequency) i = sample_due log_frequency i) /\
  exists records,
    log_records (trace w') = log_records (trace w) ++ records /\
    length records = length dataloader /\
    (forall i rec,
       nth_error records i = Some rec ->
       rec !! "samples" =
       if sample_due log_frequency i
       then Some (VImage (os_path_join outputs_dir (pretty i +:+ ".png")) prompt)
       else None).
Proof.
  intros Hlf Hfp Hok w' due.
  destruct (epoch_spec g sample_draws glide_model glide_diffusion glide_options
              optimizer sample_bs prompt outputs_dir checkpoints_dir
              log_frequency (Some run_name) Hlf (ex_intro _ _ eq_refl)
              dataloader w fp Hfp Hok)
    as (ils & w1 & Hep & Htr & Hfst & _).
  assert (Hlen : length ils = length dataloader).
  { rewrite <- (length_map fst), Hfst, length_seq. reflexivity. }
  assert (Hfst' : map fst ils = seq 0 (length ils)) by (rewrite Hlen; exact Hfst).
  subst w' due. rewrite Hep. cbn [snd]. rewrite Htr.
  split; [|split; [|split; [|split]]].
  - unfold image_paths at 1. rewrite flat_map_app.
    fold (image_paths (trace w)). f_equal.
    rewrite <- Hfst. apply image_paths_epoch.
  - unfold sampler_calls at 1. rewrite flat_map_app.
    fold (sampler_calls (trace w)). f_equal.
    rewrite <- Hfst. apply sampler_calls_epoch.
  - intros i. apply sample_due_spec. exact Hlf.
  - intros i. apply eq_true_iff_eq.
    rewrite !sample_due_spec by lia.
    split; intros [H1 H2]; split; try exact H1.
    + apply Z.divide_opp_l in H2. rewrite Z.opp_involutive in H2. exact H2.
    + apply Z.divide_opp_l. exact H2.
  - exists (map (fun il => iter_log prompt outputs_dir log_frequency
                             (fst il) (snd il)) ils).
    split; [rewrite log_records_app, log_records_epoch; reflexivity|].
    split; [rewrite length_map; exact Hlen|].
    intros i rec Hrec.
    destruct (nth_error_iter_logs _ _ _ _ _ _ Hfst' Hrec) as (l & _ & ->).
    apply iter_log_samples.
Qed.

Lemma X7_sampling_witness :
  let w' :=
    snd (run_glide_finetune_epoch toy_generator 7 (toy_model 4) toy_diffusion
           toy_options (optimizer_object (toy_model 4) false (Q2Qc (1 # 100000)))
           1 "a prompt" "./outputs" "./ckpt/" 2 (Some "glide_finetune")
           [toy_batch; toy_batch; toy_batch] initial_world) in
  let due := List.filter (sample_due 2) (seq 0 3) in
  image_paths (trace w') =
    image_paths (trace initial_world)
    ++ map (fun i => os_path_join "./outputs" (pretty i +:+ ".png")) due /\
  sampler_calls (trace w') =
    sampler_calls (trace initial_world) ++ map (fun _ => ("a prompt", 1)) due /\
  (forall i, sample_due 2 i = true <-> (0 < i)%nat /\ (2 | Z.of_nat i)) /\
  (forall i, sample_due (- 2) i = sample_due 2 i) /\
  exists records,
    log_records (trace w') = log_records (trace initial_world) ++ records /\
    length records = 3%nat /\
    (forall i rec,
       nth_error records i = Some rec ->
       rec !! "samples" =
       if sample_due 2 i
       then Some (VImage (os_path_join "./outputs" (pretty i +:+ ".png")) "a prompt")
       else None).
Proof.
  apply (X7_sampling_schedule toy_generator 7 (toy_model 4) toy_diffusion
           toy_options _ 1 "a prompt" "./outputs" "./ckpt/" 2
           "glide_finetune" [toy_batch; toy_batch; toy_batch] (PBool false)
           initial_world).
  - lia.
  - reflexivity.
  - exact (toy_loader_ok 3).
Defined.

(** ** What the checkpoint files hold *)

Section CheckpointContents.

Variable optimizer : Optimizer.
Variable sample_bs : Z.
Variable prompt : string.
Variable outputs_dir checkpoints_dir : string.
Variable log_frequency : Z.
Variable fp : pyval.

Local Abbreviation checkpoint_path := (checkpoint_path checkpoints_dir).
Local Abbreviation iter_events :=
  (iter_events optimizer sample_bs prompt outputs_dir checkpoints_dir log_frequency).
Local Abbreviation epoch_events :=
  (epoch_events optimizer sample_bs prompt outputs_dir checkpoints_dir log_frequency).



End CheckpointContents.



(** ** A training step that fails *)




Section FailingStep.

Variable g : Generator.
Variable sample_draws : nat.
Variable glide_model : Text2ImUNet.
Variable glide_diffusion : SpacedDiffusion.
Variable glide_options : gmap string pyval.
Variable optimizer : Optimizer.
Variable sample_bs : Z.
Variable prompt : string.
Variable outputs_dir checkpoints_dir : string.
Variable log_frequency : Z.
Variable wandb_run : option string.

Local Abbreviation iter_events :=
  (iter_events optimizer sample_bs prompt outputs_dir checkpoints_dir log_frequency).
Local Abbreviation body :=
  (epoch_body g sample_draws glide_model glide_diffusion optimizer sample_bs
              prompt outputs_dir checkpoints_dir log_frequency wandb_run).




End FailingStep.





(** ** Arguments the loader and the optimizer refuse *)

(** X10.  Once the dataset is found not to be empty (the checkpoint
    directory not being the empty path, which [os.makedirs] refuses, and
    the options having a "text_ctx" entry), a batch size that is not
    positive, a negative learning rate or a model none of whose
    parameters requires a gradient makes the run end with [ValueError],
    raised by the constructor of the loader or of the optimizer: the size
    of the dataset has been reported, which is the last thing the run
    does, so the epochs never start and nothing is trained or saved. *)
Theorem X10_setup_refusals (ext : Externals) (a : Args)
    (glide_model : Text2ImUNet) (glide_diffusion : SpacedDiffusion)
    (glide_options : gmap string pyval) (text_ctx : pyval) (w : world) :
  run_checkpoints_dir ext a <> "" ->
  load_base_model ext (resume_ckpt a) (use_fp16 a) (dropout a)
    (freeze_transformer a) (freeze_diffusion a) (activation_checkpointing a)
  = (glide_model, glide_diffusion, glide_options) ->
  glide_options !! "text_ctx" = Some text_ctx ->
  (0 < dataset_len (run_dataset ext a text_ctx))%nat ->
  batch_size a <= 0 \/ (learning_rate a < 0)%Qc \/
  (forall p, In p (parameters glide_model) -> requires_grad p = false) ->
  let reported :=
    setup_events ext a
    ++ [Print (MsgDatasetContains (dataset_len (run_dataset ext a text_ctx)))] in
  run_glide_finetune ext a w =
    (inl ValueError, mkWorld (trace w ++ reported) (rng w)) /\
  List.filter is_training_event reported = [].
Proof.
  intros _ Hload Hctx Hds Hbad reported. subst reported.
  split.
  - unfold run_glide_finetune. cbn zeta. rewrite !bind_emit, Hload.
    unfold dict_get. rewrite Hctx, bind_ret, bind_emit.
    fold (run_dataset ext a text_ctx).
    unfold py_assert, DataLoader.
    destruct (Nat.ltb_spec 0 (dataset_len (run_dataset ext a text_ctx)))
      as [_|?]; [|lia].
    rewrite bind_ret, bind_emit.
    assert (Htrace :
      forall r0,
        mkWorld
          (((((((trace w ++ [Makedirs (resolve_dir ext (checkpoints_dir a))])
                ++ [WandbSetup (project_name a)]) ++ [Print MsgWandbSetup])
              ++ [LoadBaseModel (resume_ckpt a)])
             ++ [MakeDataset (resolve_dir ext (data_dir a))])
            ++ [Print (MsgDatasetContains
                         (dataset_len (run_dataset ext a text_ctx)))])) r0 =
        mkWorld
          (trace w ++ setup_events ext a
           ++ [Print (MsgDatasetContains
                        (dataset_len (run_dataset ext a text_ctx)))]) r0).
    { intros r0. f_equal. unfold setup_events, run_checkpoints_dir.
      rewrite <- !app_assoc. reflexivity. }
    destruct (Z.ltb_spec 0 (batch_size a)) as [Hbs|Hbs].
    + destruct Hbad as [Hb|Hopt]; [lia|].
      rewrite bind_ret. apply bind_raise.
      rewrite (make_optimizer_refuses glide_model (use_sgd a) (learning_rate a)
                 _ Hopt).
      cbn [trace rng]. rewrite Htrace. reflexivity.
    + apply bind_raise. unfold raise. cbn [trace rng]. rewrite Htrace.
      reflexivity.
  - reflexivity.
Qed.

Lemma X10_setup_refusals_witness :
  let a := mkArgs "./data" 1 (Q2Qc (-1 # 100000)) (Q2Qc (1 # 10)) 64 64
             (Q2Qc 1) (Q2Qc 0) "" "./ckpt/" false false false
             "glide_finetune" true true 2 100 "a prompt" 1 false in
  let reported :=
    setup_events (toy_ext 4 2) a
    ++ [Print (MsgDatasetContains
                 (dataset_len (run_dataset (toy_ext 4 2) a (PInt 128))))] in
  run_glide_finetune (toy_ext 4 2) a initial_world =
    (inl ValueError, mkWorld ([] ++ reported) 0) /\
  List.filter is_training_event reported = [].
Proof.
  apply (X10_setup_refusals (toy_ext 4 2) _ (toy_model 4) toy_diffusion
           toy_options (PInt 128) initial_world).
  - discriminate.
  - reflexivity.
  - reflexivity.
  - cbn. lia.
  - right. left. reflexivity.
Defined.

(** ** Counting over a run *)


Section RunCounts.

Variable ext : Externals.
Variable a : Args.
Variable glide_model : Text2ImUNet.
Variable glide_diffusion : SpacedDiffusion.
Variable text_ctx fp : pyval.

Local Abbreviation pairs_ok :=
  (epoch_pairs_ok ext a glide_model glide_diffusion text_ctx).
Local Abbreviation block := (epoch_block ext a glide_model fp).
Local Abbreviation loader := (run_loader ext a text_ctx).



End RunCounts.




